(** * NDVI analytics server: a shallow embedding of the request handler

    The development follows the raster variant of the Express handler
    [app.post('/api/analyze')] (token, Process API, [aggregateTo3x3],
    [generateGridFromMatrix], [linearForecast]).  The statistics variant
    ([tranka/server.js]) computes the bounding box and the fully synthetic
    series with the same statements, so [BBoxCalc] and
    [Handler.synthetic_values] stand for both.

    Numbers.  A JavaScript number is modelled by [num]: an exact rational,
    one of the two infinities, or NaN.  Arithmetic is exact: binary64
    rounding, overflow and the sign of zero are not represented.  What is
    kept is what the handler's control flow depends on: NaN is absorbing,
    every comparison with NaN is false, [Math.min]/[Math.max] return NaN
    as soon as one argument is NaN, [x || d] replaces the falsy numbers
    (0 and NaN), and reading past the end of an array yields [undefined]. *)

From Stdlib Require Import ZArith QArith Qround Qminmax Lia Lqa String.
From stdpp Require Import base option list strings.

Open Scope Q_scope.

(** ** JavaScript numbers *)

Module JS.

Inductive num : Type :=
  | NaN
  | NInf
  | Fin (q : Q)
  | PInf.

Definition of_Z (z : Z) : num := Fin (inject_Z z).
Definition of_nat (n : nat) : num := of_Z (Z.of_nat n).

Definition isNaN (a : num) : bool :=
  match a with NaN => true | _ => false end.

Definition is_finite (a : num) : Prop :=
  match a with Fin _ => True | _ => False end.

(** Sign of a rational as a comparison with zero. *)
Definition qsign (q : Q) : comparison := q ?= 0.

Definition neg (a : num) : num :=
  match a with
  | NaN => NaN
  | NInf => PInf
  | PInf => NInf
  | Fin q => Fin (- q)
  end.

Definition add (a b : num) : num :=
  match a, b with
  | NaN, _ | _, NaN => NaN
  | PInf, NInf | NInf, PInf => NaN
  | PInf, _ | _, PInf => PInf
  | NInf, _ | _, NInf => NInf
  | Fin p, Fin q => Fin (p + q)
  end.

Definition sub (a b : num) : num := add a (neg b).

(** An infinity scaled by a finite factor. *)
Definition scale_inf (positive : bool) (q : Q) : num :=
  match qsign q with
  | Eq => NaN
  | Gt => if positive then PInf else NInf
  | Lt => if positive then NInf else PInf
  end.

Definition mul (a b : num) : num :=
  match a, b with
  | NaN, _ | _, NaN => NaN
  | PInf, PInf | NInf, NInf => PInf
  | PInf, NInf | NInf, PInf => NInf
  | PInf, Fin q | Fin q, PInf => scale_inf true q
  | NInf, Fin q | Fin q, NInf => scale_inf false q
  | Fin p, Fin q => Fin (p * q)
  end.

(** Division; a zero divisor is the positive zero. *)
Definition div (a b : num) : num :=
  match a, b with
  | NaN, _ | _, NaN => NaN
  | (PInf | NInf), (PInf | NInf) => NaN
  | Fin _, (PInf | NInf) => Fin 0
  | PInf, Fin q => match qsign q with Lt => NInf | _ => PInf end
  | NInf, Fin q => match qsign q with Lt => PInf | _ => NInf end
  | Fin p, Fin q =>
      match qsign q with
      | Eq => match qsign p with Eq => NaN | Gt => PInf | Lt => NInf end
      | _ => Fin (p / q)
      end
  end.

(** [a < b]; false when either side is NaN. *)
Definition lt (a b : num) : bool :=
  match a, b with
  | NaN, _ | _, NaN => false
  | _, NInf => false
  | NInf, _ => true
  | PInf, _ => false
  | _, PInf => true
  | Fin p, Fin q => match p ?= q with Lt => true | _ => false end
  end.

Definition eqn (a b : num) : bool :=
  match a, b with
  | NInf, NInf | PInf, PInf => true
  | Fin p, Fin q => Qeq_bool p q
  | _, _ => false
  end.

Definition le (a b : num) : bool := lt a b || eqn a b.
Definition ge (a b : num) : bool := le b a.

Definition Math_min (a b : num) : num :=
  if isNaN a || isNaN b then NaN else if lt b a then b else a.

Definition Math_max (a b : num) : num :=
  if isNaN a || isNaN b then NaN else if lt a b then b else a.

(** Truthiness of a number: 0 and NaN are falsy. *)
Definition truthy (a : num) : bool :=
  match a with
  | NaN => false
  | Fin q => negb (Qeq_bool q 0)
  | _ => true
  end.

(** [x || d] where [x] is [undefined] (absent) or a number. *)
Definition or_else (x : option num) (d : num) : num :=
  match x with
  | Some v => if truthy v then v else d
  | None => d
  end.

(** A read [a[i]] used as a number: [undefined] behaves as NaN under
    arithmetic, comparison and [isNaN]. *)
Definition get (a : list num) (i : nat) : num := default NaN (a !! i).

(** [arr.reduce((a, b) => a + b, 0)]. *)
Definition sum (l : list num) : num := foldl add (Fin 0) l.

(** Equality of numbers up to the representation of the rational. *)
Definition num_eq (a b : num) : Prop :=
  match a, b with
  | NaN, NaN | NInf, NInf | PInf, PInf => True
  | Fin p, Fin q => p == q
  | _, _ => False
  end.

(** The closed interval between two rationals; NaN and the infinities are
    outside every interval. *)
Definition between (lo hi : Q) (a : num) : Prop :=
  match a with
  | Fin q => lo <= q <= hi
  | _ => False
  end.

End JS.

Import JS.

Declare Scope num_scope.
Delimit Scope num_scope with num.
Bind Scope num_scope with num.
Infix "+" := add : num_scope.
Infix "-" := sub : num_scope.
Infix "*" := mul : num_scope.
Infix "/" := div : num_scope.
Infix "<?" := lt : num_scope.
Infix ">=?" := ge : num_scope.
Infix "==n" := num_eq (at level 70, no associativity).

(** ** ForecastEngine: [linearForecast] *)

Module Forecast.

(** [Math.min(0.9, Math.max(0.1, val))]. *)
Definition clamp (val : num) : num :=
  Math_min (Fin 0.9) (Math_max (Fin 0.1) val).

(** The body of the [for (let i = 1; i <= days; i++)] loop, for the
    iterations [i = from .. from + fuel - 1]. *)
Fixpoint forecast_loop (intercept slope : num) (n : nat) (i : nat)
    (fuel : nat) : list num :=
  match fuel with
  | O => []
  | S fuel' =>
      let val := (intercept + slope * (of_nat n - Fin 1 + of_nat i))%num in
      clamp val :: forecast_loop intercept slope n (S i) fuel'
  end.

Definition linearForecast (values : list num) (days : nat) : list num :=
  if (length values <? 2)%nat then
    replicate days (or_else (values !! 0%nat) (Fin 0.5))
  else
    let n := length values in
    let indices := seq 0 n in
    let sumX := foldl (fun a b => (a + of_nat b)%num) (Fin 0) indices in
    let sumY := foldl (fun a b => (a + b)%num) (Fin 0) values in
    let sumXY :=
      foldl (fun a i => (a + of_nat i * get values i)%num) (Fin 0) indices in
    let sumX2 :=
      foldl (fun a i => (a + of_nat i * of_nat i)%num) (Fin 0) indices in
    let slope :=
      ((of_nat n * sumXY - sumX * sumY)
       / (of_nat n * sumX2 - sumX * sumX))%num in
    let intercept := ((sumY - slope * sumX) / of_nat n)%num in
    forecast_loop intercept slope n 1 days.

End Forecast.

(** ** Exceptions

    A computation that may throw returns an [outcome]. *)

Module Exn.

Inductive exn : Type :=
  | TypeError        (* a property read on [undefined] *)
  | Error (msg : string).

Inductive outcome (A : Type) : Type :=
  | Ok (a : A)
  | Throw (e : exn).
Arguments Ok {A} a.
Arguments Throw {A} e.

Definition bind {A B} (m : outcome A) (k : A -> outcome B) : outcome B :=
  match m with
  | Ok a => k a
  | Throw e => Throw e
  end.

(** [try { m } catch (err) { h }]. *)
Definition try_catch {A} (m : outcome A) (h : exn -> A) : A :=
  match m with
  | Ok a => a
  | Throw e => h e
  end.

(** [for (let x = lo; x < hi; x++) body], threading the loop's state. *)
Fixpoint for_loop {S} (fuel : nat) (x : Z) (body : Z -> S -> outcome S)
    (s : S) : outcome S :=
  match fuel with
  | O => Ok s
  | Datatypes.S fuel' => bind (body x s) (for_loop fuel' (x + 1)%Z body)
  end.

Definition for_range {S} (lo hi : Z) (body : Z -> S -> outcome S) (s : S)
    : outcome S :=
  for_loop (Z.to_nat (hi - lo)) lo body s.

End Exn.

Import Exn.

#[global] Instance outcome_ret : MRet outcome := @Ok.
#[global] Instance outcome_bind : MBind outcome := fun A B k m => bind m k.

(** ** GridAggregator: [aggregateTo3x3] *)

Module Aggregator.

(** A raster is an array of rows; [ndviArray[y][x]] is row [y], column [x]. *)
Abbreviation raster := (list (list num)).

(** [const blockSize = 100 / 3]. *)
Definition blockSize : Q := 100 / 3.

(** [Math.floor(i * blockSize)] for a loop index [i]. *)
Definition bound (i : Z) : Z := Qfloor (inject_Z i * blockSize).

(** [ndviArray[y][x]]: a missing row is [undefined], and reading a column
    of [undefined] throws; a missing column reads as [undefined]. *)
Definition pixel (ndviArray : raster) (y x : Z) : outcome num :=
  match ndviArray !! Z.to_nat y with
  | None => Throw TypeError
  | Some row => Ok (get row (Z.to_nat x))
  end.

(** The body of the innermost loop: the guard and the accumulation into
    [(sum, count)]. *)
Definition visit (ndviArray : raster) (x y : Z) (acc : num * Z)
    : outcome (num * Z) :=
  if ((x <? 100)%Z && (y <? 100)%Z)%bool then
    v ← pixel ndviArray y x;
    if negb (isNaN v) then Ok ((acc.1 + v)%num, (acc.2 + 1)%Z) else Ok acc
  else Ok acc.

(** The two pixel loops of one block, from [sum = 0], [count = 0]. *)
Definition block_acc (ndviArray : raster) (i j : Z) : outcome (num * Z) :=
  let xStart := bound i in
  let xEnd := bound (i + 1) in
  let yStart := bound j in
  let yEnd := bound (j + 1) in
  for_range xStart xEnd
    (fun x acc => for_range yStart yEnd (fun y acc' => visit ndviArray x y acc') acc)
    (Fin 0, 0%Z).

(** [count > 0 ? sum / count : 0]. *)
Definition mean_or_zero (acc : num * Z) : num :=
  if (0 <? acc.2)%Z then (acc.1 / of_Z acc.2)%num else Fin 0.

(** [result[j][i] = v]. *)
Definition store (result : list (list num)) (j i : Z) (v : num)
    : list (list num) :=
  alter (insert (Z.to_nat i) v) (Z.to_nat j) result.

Definition aggregateTo3x3 (ndviArray : raster) : outcome (list (list num)) :=
  let result := replicate 3 (replicate 3 (Fin 0)) in
  for_range 0 3
    (fun i result =>
       for_range 0 3
         (fun j result =>
            acc ← block_acc ndviArray i j;
            Ok (store result j i (mean_or_zero acc)))
         result)
    result.

End Aggregator.

(** ** HealthClassifier: the two label ladders and the colour ladder *)

Module Classifier.

Local Open Scope string_scope.

(** The per-cell ladder of [generateGridFromMatrix]. *)
Definition health_of (ndvi : num) : string :=
  if (ndvi >=? Fin 0.7)%num then "отлично"
  else if (ndvi >=? Fin 0.55)%num then "хорошо"
  else if (ndvi >=? Fin 0.4)%num then "средне"
  else if (ndvi >=? Fin 0.25)%num then "плохо"
  else "критично".

Definition color_of (ndvi : num) : string :=
  if (ndvi >=? Fin 0.7)%num then "#2e7d32"
  else if (ndvi >=? Fin 0.55)%num then "#7cb342"
  else if (ndvi >=? Fin 0.4)%num then "#fbc02d"
  else if (ndvi >=? Fin 0.25)%num then "#f57c00"
  else "#d32f2f".

(** The summary ladder of the handler ([overallHealth]). *)
Definition overallHealth_of (avgNdvi : num) : string :=
  if (avgNdvi >=? Fin 0.7)%num then "отличное"
  else if (avgNdvi >=? Fin 0.55)%num then "хорошее"
  else if (avgNdvi >=? Fin 0.4)%num then "среднее"
  else if (avgNdvi >=? Fin 0.25)%num then "плохое"
  else "критическое".

(** The five buckets of the specification, best first. *)
Inductive bucket : Type := Excellent | Good | Moderate | Poor | Critical.

(** The bucket of a value, by the specification's words: inclusive lower
    bounds 0.70, 0.55, 0.40, 0.25, everything else critical. *)
Definition bucket_of (ndvi : num) : bucket :=
  match ndvi with
  | NaN | NInf => Critical
  | PInf => Excellent
  | Fin q =>
      if Qle_bool 0.7 q then Excellent
      else if Qle_bool 0.55 q then Good
      else if Qle_bool 0.4 q then Moderate
      else if Qle_bool 0.25 q then Poor
      else Critical
  end.

Definition cell_label (b : bucket) : string :=
  match b with
  | Excellent => "отлично" | Good => "хорошо" | Moderate => "средне"
  | Poor => "плохо" | Critical => "критично"
  end.

Definition overall_label (b : bucket) : string :=
  match b with
  | Excellent => "отличное" | Good => "хорошее" | Moderate => "среднее"
  | Poor => "плохое" | Critical => "критическое"
  end.

Definition bucket_color (b : bucket) : string :=
  match b with
  | Excellent => "#2e7d32" | Good => "#7cb342" | Moderate => "#fbc02d"
  | Poor => "#f57c00" | Critical => "#d32f2f"
  end.

(** Rank of a bucket, 4 for the best. *)
Definition rank (b : bucket) : nat :=
  match b with
  | Excellent => 4 | Good => 3 | Moderate => 2 | Poor => 1 | Critical => 0
  end.

End Classifier.

(** ** GridBuilder: [generateGridFromMatrix] *)

Module Grid.

Import Classifier.

Definition point : Type := num * num.

(** A GeoJSON feature of the grid: [properties] and the outer ring of the
    polygon geometry. *)
Record Feature : Type := mkFeature {
  ndvi : num;
  health : string;
  color : string;
  coordinates : list point
}.

(** [[minLng, minLat, maxLng, maxLat]]. *)
Record BBox : Type := mkBBox {
  minLng : num;
  minLat : num;
  maxLng : num;
  maxLat : num
}.

Record GridResult : Type := mkGridResult {
  features : list Feature;
  avgNdvi : num
}.

(** [matrix[j][i]]: throws on a missing row. *)
Definition entry (matrix : list (list num)) (j i : Z) : outcome num :=
  match matrix !! Z.to_nat j with
  | None => Throw TypeError
  | Some row => Ok (get row (Z.to_nat i))
  end.

(** One iteration of the inner loop: pushes a cell and its value. *)
Definition push_cell (minLng minLat stepX stepY : num)
    (matrix : list (list num)) (i j : Z) (st : list Feature * list num)
    : outcome (list Feature * list num) :=
  ndvi ← entry matrix j i;
  let cellMinLng := (minLng + of_Z i * stepX)%num in
  let cellMaxLng := (minLng + of_Z (i + 1) * stepX)%num in
  let cellMinLat := (minLat + of_Z j * stepY)%num in
  let cellMaxLat := (minLat + of_Z (j + 1) * stepY)%num in
  Ok (st.1 ++ [mkFeature ndvi (health_of ndvi) (color_of ndvi)
                 [(cellMinLng, cellMinLat);
                  (cellMaxLng, cellMinLat);
                  (cellMaxLng, cellMaxLat);
                  (cellMinLng, cellMaxLat);
                  (cellMinLng, cellMinLat)]],
      st.2 ++ [ndvi]).

Definition generateGridFromMatrix (bbox : BBox) (matrix : list (list num))
    : outcome GridResult :=
  let stepX := ((maxLng bbox - minLng bbox) / Fin 3)%num in
  let stepY := ((maxLat bbox - minLat bbox) / Fin 3)%num in
  st ← for_range 0 3
         (fun i st =>
            for_range 0 3
              (fun j st' =>
                 push_cell (minLng bbox) (minLat bbox) stepX stepY matrix i j st')
              st)
         ([], []);
  let gridCells := st.1 in
  let ndviValues := st.2 in
  Ok (mkGridResult gridCells
        (JS.sum ndviValues / of_nat (length ndviValues))%num).

End Grid.

(** ** BBoxCalculator: the first block of the handler (both variants) *)

Module BBoxCalc.

Import Grid.

(** One step of [polygon.forEach(([lng, lat]) => ...)] on
    [(minLng, maxLng, minLat, maxLat)]. *)
Definition extend (acc : num * num * num * num) (p : point)
    : num * num * num * num :=
  let '(minLng, maxLng, minLat, maxLat) := acc in
  (Math_min minLng p.1, Math_max maxLng p.1,
   Math_min minLat p.2, Math_max maxLat p.2).

(** The extent before padding, from [Infinity]/[-Infinity]. *)
Definition raw_extent (polygon : list point) : num * num * num * num :=
  foldl extend (PInf, NInf, PInf, NInf) polygon.

Definition bbox_of (polygon : list point) : BBox :=
  let '(minLng, maxLng, minLat, maxLat) := raw_extent polygon in
  let lngPad := ((maxLng - minLng) * Fin 0.1)%num in
  let latPad := ((maxLat - minLat) * Fin 0.1)%num in
  mkBBox (minLng - lngPad) (minLat - latPad) (maxLng + lngPad) (maxLat + latPad).

(** [centerLat], [centerLng]. *)
Definition center_of (bbox : BBox) : num * num :=
  ((minLat bbox + maxLat bbox) / Fin 2, (minLng bbox + maxLng bbox) / Fin 2)%num.

End BBoxCalc.

(** ** StressZoneDetector *)

Module Stress.

Import Grid.

(** [f => f.properties.ndvi < 0.3]. *)
Definition is_stressed (f : Feature) : bool := (ndvi f <? Fin 0.3)%num.

(** [grid.features.filter(f => f.properties.ndvi < 0.3)]. *)
Definition stressFeatures (features : list Feature) : list Feature :=
  List.filter is_stressed features.

(** [(stressFeatures.length / grid.features.length) * 100]. *)
Definition stressPercent (features : list Feature) : num :=
  (of_nat (length (stressFeatures features)) / of_nat (length features)
   * Fin 100)%num.

End Stress.

(** ** TimeSeriesSynthesizer and the handler of the raster variant

    [Math.sin] and [Math.random] are the ambient functions of the runtime:
    [Math_sin] is the (number-valued) sine, [draws k] the result of the
    [k]-th call of [Math.random()] made by the request.  Date labels and
    the recommendation text are strings built from the wall clock and the
    locale; they are left out of the result record. *)

Module Handler.

Import Grid BBoxCalc Aggregator Classifier Forecast Stress.

Section Ambient.

Variable Math_sin : Q -> Q.
Variable draws : nat -> Q.

(** [Math.sin(a)]: NaN outside the finite numbers. *)
Definition sin_num (a : num) : num :=
  match a with
  | Fin q => Fin (Math_sin q)
  | _ => NaN
  end.

(** The fully synthetic loop [for (let i = period; i >= 0; i--)]: [fuel]
    iterations from index [i], the [k]-th random draw being the next. *)
Fixpoint synthetic_loop (fuel : nat) (i : Z) (k : nat) : list num :=
  match fuel with
  | O => []
  | S fuel' =>
      (Fin 0.5 + sin_num (of_Z i / Fin 10) * Fin 0.2
       + Fin (draws k) * Fin 0.1)%num
      :: synthetic_loop fuel' (i - 1) (S k)
  end.

Definition synthetic_values (period : Z) (k : nat) : list num :=
  synthetic_loop (Z.to_nat (period + 1)) period k.

(** The mean-anchored loop of the raster variant. *)
Fixpoint anchored_loop (avgNdvi : num) (fuel : nat) (i : Z) (k : nat)
    : list num :=
  match fuel with
  | O => []
  | S fuel' =>
      let val :=
        (avgNdvi + sin_num (of_Z i / Fin 5) * Fin 0.05
         + (Fin (draws k) * Fin 0.02 - Fin 0.01))%num in
      clamp val :: anchored_loop avgNdvi fuel' (i - 1) (S k)
  end.

Definition anchored_values (avgNdvi : num) (period : Z) (k : nat) : list num :=
  anchored_loop avgNdvi (Z.to_nat (period + 1)) period k.

(** *** The collaborators *)

(** What [getAccessToken] meets. *)
Inductive token_world : Type :=
  | TokenCached (token : string)   (* cached and not about to expire *)
  | TokenUnreachable               (* the fetch of the token URL rejects *)
  | TokenRefused (status : Z)      (* [response.ok] is false *)
  | TokenIssued (token : string).

Definition getAccessToken (w : token_world) : outcome string :=
  match w with
  | TokenCached token => Ok token
  | TokenUnreachable => Throw (Error "fetch")
  | TokenRefused _ => Throw (Error "Не удалось получить токен")
  | TokenIssued token => Ok token
  end.

(** What the request to the Process API meets. *)
Inductive process_world : Type :=
  | ProcessUnreachable             (* the fetch rejects *)
  | ProcessRefused (status : Z)    (* [processResponse.ok] is false *)
  | ProcessUndecodable             (* the GeoTIFF decoding throws *)
  | ProcessImage (width height : nat) (data : list num).

(** [if (val < -1 || val > 1) val = NaN]. *)
Definition sanitize (val : num) : num :=
  if ((val <? Fin (-1))%num || (Fin 1 <? val)%num)%bool then NaN else val.

(** The row-major band as a 2D array. *)
Definition to_matrix (width height : nat) (data : list num) : raster :=
  map (fun y => map (fun x => sanitize (get data (y * width + x))) (seq 0 width))
      (seq 0 height).

(** The variables the inner [try] block assigns. *)
Record Acquired : Type := mkAcquired {
  ndviMatrix : option raster;
  usingRealData : bool;
  avgNdvi_real : option num
}.

(** The inner [try] block: the variables as it leaves them, and whether it
    completed or threw. *)
Definition try_block (w : process_world) : Acquired * outcome unit :=
  match w with
  | ProcessUnreachable => (mkAcquired None true None, Throw (Error "fetch"))
  | ProcessRefused _ => (mkAcquired None false None, Ok ())
  | ProcessUndecodable => (mkAcquired None true None, Throw (Error "GeoTIFF"))
  | ProcessImage width height data =>
      let m := to_matrix width height data in
      let validValues := List.filter (fun v => negb (isNaN v)) (concat m) in
      if (length validValues =? 0)%nat then
        (mkAcquired (Some m) true None, Throw (Error "Нет валидных пикселей"))
      else
        (mkAcquired (Some m) true
           (Some (JS.sum validValues / of_nat (length validValues))%num),
         Ok ())
  end.

(** [try { ... } catch (err) { usingRealData = false; }]. *)
Definition acquire (w : process_world) : Acquired :=
  let '(st, r) := try_block w in
  match r with
  | Ok _ => st
  | Throw _ => mkAcquired (ndviMatrix st) false (avgNdvi_real st)
  end.

(** *** The request and the response *)

Record Request : Type := mkRequest {
  polygon : option (list point);
  period : Z
}.

Record Summary : Type := mkSummary {
  avg_ndvi : num;
  summary_health : string;
  stress_percent : num;
  center : num * num            (* lat, lon *)
}.

Record AnalysisResult : Type := mkResult {
  summary : Summary;
  health_grid : list Feature;
  stress_zones : list Feature;
  time_series : list num;
  forecast : list num;
  data_source : string
}.

Inductive response : Type :=
  | Status400                       (* invalid polygon *)
  | Status500 (details : exn)       (* the outer [catch] *)
  | Status200 (result : AnalysisResult).

Definition REAL_SOURCE : string :=
  "Sentinel-2 L2A (реальные данные, Process API)".
Definition TEST_SOURCE : string := "Тестовые данные (имитация)".

(** [values.slice(-5)]. *)
Definition slice_last (k : nat) (values : list num) : list num :=
  drop (length values - k) values.

(** The matrix of the test grid. *)
Definition test_matrix (avgNdvi : num) : list (list num) :=
  [[avgNdvi + Fin 0.1; avgNdvi - Fin 0.05; avgNdvi + Fin 0.02];
   [avgNdvi - Fin 0.03; avgNdvi + Fin 0.07; avgNdvi - Fin 0.08];
   [avgNdvi + Fin 0.04; avgNdvi - Fin 0.02; avgNdvi + Fin 0.05]]%num.

(** The body of the outer [try]. *)
Definition analyze_body (tw : token_world) (pw : process_world)
    (polygon : list point) (period : Z) : outcome AnalysisResult :=
  let bbox := bbox_of polygon in
  accessToken ← getAccessToken tw;
  let st := acquire pw in
  let '(values, avgNdvi) :=
    match usingRealData st, avgNdvi_real st with
    | true, Some avg => (anchored_values avg period 0, avg)
    | _, _ =>
        let values := synthetic_values period 0 in
        (values, (JS.sum values / of_nat (length values))%num)
    end in
  let forecastValues := linearForecast (slice_last 5 values) 7 in
  '(grid, avgNdvi) ←
    match usingRealData st, ndviMatrix st with
    | true, Some m =>
        matrix3x3 ← aggregateTo3x3 m;
        gridResult ← generateGridFromMatrix bbox matrix3x3;
        Ok (features gridResult, Grid.avgNdvi gridResult)
    | _, _ =>
        testGrid ← generateGridFromMatrix bbox (test_matrix avgNdvi);
        Ok (features testGrid, avgNdvi)
    end;
  Ok (mkResult
        (mkSummary avgNdvi (overallHealth_of avgNdvi) (stressPercent grid)
           (center_of bbox))
        grid
        (List.filter is_stressed grid)
        values
        forecastValues
        (if usingRealData st then REAL_SOURCE else TEST_SOURCE)).

(** [app.post('/api/analyze', ...)]. *)
Definition analyze (tw : token_world) (pw : process_world) (req : Request)
    : response :=
  match polygon req with
  | None => Status400
  | Some polygon =>
      if (length polygon <? 3)%nat then Status400
      else
        try_catch
          (result ← analyze_body tw pw polygon (period req);
           Ok (Status200 result))
          (fun error => Status500 error)
  end.

End Ambient.

End Handler.

(** ** The statistics variant ([tranka/server.js])

    The earlier handler queries the Statistical API for a daily series of
    means, draws the grid around the average with [generateGridFromStats]
    and the forecast around the last value.  Bounding box, synthetic
    series, label ladders and stress zones are the statements of the
    raster variant.  [Math.random()] is called by the synthetic series
    first, then by the forecast, then by the grid: the cursor [k] into
    [draws] is threaded in that order. *)

Module StatsVariant.

Import Grid BBoxCalc Classifier Forecast Stress Handler.

Section Ambient.

Variable Math_sin : Q -> Q.
Variable draws : nat -> Q.

(** One iteration of the inner loop of [generateGridFromStats]: the cell
    of column [i] and row [j], its value drawn around [meanNdvi]. *)
Definition push_stats_cell (minLng minLat stepX stepY meanNdvi : num)
    (i j : Z) (st : list Feature * list num * nat)
    : list Feature * list num * nat :=
  let '(gridCells, ndviValues, k) := st in
  let cellMinLng := (minLng + of_Z i * stepX)%num in
  let cellMaxLng := (minLng + of_Z (i + 1) * stepX)%num in
  let cellMinLat := (minLat + of_Z j * stepY)%num in
  let cellMaxLat := (minLat + of_Z (j + 1) * stepY)%num in
  let ndvi := (meanNdvi + (Fin (draws k) - Fin 0.5) * Fin 0.15)%num in
  (gridCells ++ [mkFeature ndvi (health_of ndvi) (color_of ndvi)
                   [(cellMinLng, cellMinLat);
                    (cellMaxLng, cellMinLat);
                    (cellMaxLng, cellMaxLat);
                    (cellMinLng, cellMaxLat);
                    (cellMinLng, cellMinLat)]],
   ndviValues ++ [ndvi], S k).

(** [generateGridFromStats(bbox, meanNdvi)], from the draw [k]; the
    second component is the next draw. *)
Definition generateGridFromStats (bbox : BBox) (meanNdvi : num) (k : nat)
    : GridResult * nat :=
  let stepX := ((maxLng bbox - minLng bbox) / Fin 3)%num in
  let stepY := ((maxLat bbox - minLat bbox) / Fin 3)%num in
  let '(gridCells, ndviValues, k') :=
    foldl (fun st i =>
             foldl (fun st' j =>
                      push_stats_cell (minLng bbox) (minLat bbox) stepX stepY
                        meanNdvi i j st')
                   st (seqZ 0 3))
          ([], [], k) (seqZ 0 3) in
  (mkGridResult gridCells
     (JS.sum ndviValues / of_nat (length ndviValues))%num, k').

(** The forecast loop: 7 values around [lastValue]. *)
Fixpoint stats_forecast_loop (lastValue : num) (fuel : nat) (k : nat)
    : list num :=
  match fuel with
  | O => []
  | S fuel' =>
      clamp (lastValue + (Fin (draws k) - Fin 0.5) * Fin 0.05)%num
      :: stats_forecast_loop lastValue fuel' (S k)
  end.

(** [timeSeries.values[timeSeries.values.length - 1] || 0.5] and the
    loop. *)
Definition stats_forecast (values : list num) (k : nat) : list num :=
  stats_forecast_loop (or_else (last values) (Fin 0.5)) 7 k.










End Ambient.

End StatsVariant.

(** ** RecommendationEngine: the rule ladder of both handlers

    The recommendation is one of three messages chosen on [avgNdvi], with
    a second line appended when [stressPercent > 20].  The messages embed
    [avgNdvi.toFixed(2)] and [stressPercent.toFixed(0)]; the text is left
    out and the choice is kept. *)

Module Recommendation.

Inductive advice : Type :=
  | PlannedFertilizing      (* "Состояние посевов хорошее ..." *)
  | InspectForWaterDeficit  (* "Вегетация средняя ..." *)
  | UrgentIrrigation.       (* "Критическое состояние ..." *)

(** [if (avgNdvi > 0.6) ... else if (avgNdvi > 0.4) ... else ...]. *)
Definition advice_of (avgNdvi : num) : advice :=
  if (Fin 0.6 <? avgNdvi)%num then PlannedFertilizing
  else if (Fin 0.4 <? avgNdvi)%num then InspectForWaterDeficit
  else UrgentIrrigation.

(** [if (stressPercent > 20)]: whether the stress line is appended. *)
Definition stress_line (stressPercent : num) : bool :=
  (Fin 20 <? stressPercent)%num.

Definition recommend (avgNdvi stressPercent : num) : advice * bool :=
  (advice_of avgNdvi, stress_line stressPercent).

End Recommendation.

(** ** The token cache: [getAccessToken] with its module-level state

    [Handler.getAccessToken] above only records whether the call returns
    or throws.  Here the two module variables [cachedToken] and
    [tokenExpiry] are explicit, [Date.now()] is a parameter (milliseconds),
    and the reply of the token endpoint is given.  The text appended to
    the error message (status and body) is left out. *)

Module TokenCache.

Local Open Scope string_scope.

(** [let cachedToken = null; let tokenExpiry = 0;]. *)
Record TokenState : Type := mkTokenState {
  cachedToken : option string;
  tokenExpiry : num
}.

Definition initial : TokenState := mkTokenState None (Fin 0).

(** Truthiness of [cachedToken]: [null], [undefined] and the empty string
    are falsy. *)
Definition truthy_token (t : option string) : bool :=
  match t with
  | Some s => negb (String.eqb s "")
  | None => false
  end.

(** What the request to the token URL meets. *)
Inductive token_reply : Type :=
  | FetchRejected                               (* [fetch] rejects *)
  | ReplyNotOk (status : Z)                     (* [response.ok] is false *)
  | ReplyOk (received : Z) (access_token : option string) (expires_in : num).
      (* [received] is [Date.now()] when the body has been read; a missing
         [expires_in] is [undefined], NaN under the multiplication *)

(** [Date.now() < tokenExpiry - 300000] with a truthy cached token. *)
Definition cache_valid (now : Z) (st : TokenState) : bool :=
  truthy_token (cachedToken st)
  && (of_Z now <? tokenExpiry st - Fin 300000)%num.

(** One call: the result and the state it leaves. *)
Definition getAccessToken (now : Z) (reply : token_reply) (st : TokenState)
    : outcome (option string) * TokenState :=
  if cache_valid now st then (Ok (cachedToken st), st)
  else
    match reply with
    | FetchRejected => (Throw (Error "fetch"), st)
    | ReplyNotOk _ => (Throw (Error "Не удалось получить токен"), st)
    | ReplyOk received access_token expires_in =>
        (Ok access_token,
         mkTokenState access_token (of_Z received + expires_in * Fin 1000)%num)
    end.

End TokenCache.

(** * Specification-side definitions

    The notions the properties below are stated with. *)

Import Forecast Aggregator Classifier Grid BBoxCalc Stress Handler.

(** A vertex with finite coordinates. *)
Definition finite_point (p : point) : Prop := is_finite p.1 /\ is_finite p.2.

(** The ring of cell [(i, j)]: the rectangle between the corners
    [(minLng + i stepX, minLat + j stepY)] and
    [(minLng + (i+1) stepX, minLat + (j+1) stepY)], closed on its first
    corner. *)
Definition cell_ring (bbox : BBox) (i j : nat) : list point :=
  let stepX := ((maxLng bbox - minLng bbox) / Fin 3)%num in
  let stepY := ((maxLat bbox - minLat bbox) / Fin 3)%num in
  let x0 := (minLng bbox + of_nat i * stepX)%num in
  let y0 := (minLat bbox + of_nat j * stepY)%num in
  let x1 := (minLng bbox + of_nat (i + 1) * stepX)%num in
  let y1 := (minLat bbox + of_nat (j + 1) * stepY)%num in
  [(x0, y0); (x1, y0); (x1, y1); (x0, y1); (x0, y0)].

(** The feature pushed for cell [(i, j)] holding the value [v]. *)
Definition grid_cell (bbox : BBox) (v : num) (i j : nat) : Feature :=
  mkFeature v (health_of v) (color_of v) (cell_ring bbox i j).

(** The value pushed for index [i] with the random draw [r]. *)
Definition synthetic_point (Math_sin : Q -> Q) (i : Z) (r : Q) : Q :=
  0.5 + Math_sin (inject_Z i / 10) * 0.2 + r * 0.1.

(** The aggregation as the specification words it, for a [W] x [H]
    raster: cell [(i, j)] averages the valid pixels with
    [floor(i W / 3) <= x < floor((i+1) W / 3)] and likewise for [y], and
    is 0 when there is none. *)
Module AggregatorSpec.

Definition spec_bound (W : nat) (i : Z) : Z :=
  Qfloor (inject_Z i * inject_Z (Z.of_nat W) / 3).

Definition pixel_at (r : raster) (x y : Z) : option num :=
  row ← r !! Z.to_nat y; row !! Z.to_nat x.

(** The pixel at [(x, y)] when it is valid, as a list of at most one
    value. *)
Definition valid_pixel (r : raster) (x y : Z) : list num :=
  match pixel_at r x y with
  | Some v => if isNaN v then [] else [v]
  | None => []
  end.

Definition block_pixels (W H : nat) (r : raster) (i j : Z) : list num :=
  x ← seqZ (spec_bound W i) (spec_bound W (i + 1) - spec_bound W i);
  y ← seqZ (spec_bound H j) (spec_bound H (j + 1) - spec_bound H j);
  valid_pixel r x y.

Definition block_mean (ps : list num) : num :=
  match ps with
  | [] => Fin 0
  | _ => (JS.sum ps / of_nat (length ps))%num
  end.

(** Rows are latitude blocks [j], columns longitude blocks [i]. *)
Definition spec_aggregate (W H : nat) (r : raster) : list (list num) :=
  (fun j => (fun i => block_mean (block_pixels W H r i j)) <$> [0; 1; 2]%Z)
  <$> [0; 1; 2]%Z.

End AggregatorSpec.

Import AggregatorSpec.

(** The failures of the Process API request that the inner [try]/[catch]
    absorbs: connection error, non-success response, undecodable payload,
    and an image without a valid pixel. *)
Inductive acquisition_failed : process_world -> Prop :=
  | failed_unreachable : acquisition_failed ProcessUnreachable
  | failed_refused status : acquisition_failed (ProcessRefused status)
  | failed_undecodable : acquisition_failed ProcessUndecodable
  | failed_no_valid_pixel width height data :
      List.filter (fun v => negb (isNaN v)) (concat (to_matrix width height data)) = [] ->
      acquisition_failed (ProcessImage width height data).


(** The value [generateGridFromStats] draws for a cell from the random
    draw [r]. *)
Definition stats_value (meanNdvi : num) (r : Q) : num :=
  (meanNdvi + (Fin r - Fin 0.5) * Fin 0.15)%num.


(** * Properties *)

(** ** Numbers *)

Section NumFacts.

Lemma qsign_Eq (q : Q) : qsign q = Eq <-> q == 0.
Proof. unfold qsign. by rewrite <- Qeq_alt. Qed.

Lemma div_fin (p q : Q) : ~ q == 0 -> (Fin p / Fin q)%num = Fin (p / q).
Proof.
  intros Hq. unfold div.
  destruct (qsign q) eqn:E; try done.
  by apply qsign_Eq in E.
Qed.

Lemma lt_fin (p q : Q) : (Fin p <? Fin q)%num = true <-> p < q.
Proof.
  unfold lt. rewrite Qlt_alt. by destruct (p ?= q).
Qed.

Lemma lt_fin_false (p q : Q) : (Fin p <? Fin q)%num = false <-> q <= p.
Proof.
  unfold lt. rewrite Qle_alt, <- (Qcompare_antisym p q).
  destruct (p ?= q); simpl; split; try done; intros H; by destruct H.
Qed.

Lemma ge_fin (p q : Q) : (Fin p >=? Fin q)%num = Qle_bool q p.
Proof.
  unfold ge, le, lt, eqn.
  destruct (Qle_bool q p) eqn:E.
  - apply Qle_bool_iff in E.
    destruct (Qcompare_spec q p) as [H|H|H]; simpl; try done.
    + by apply Qeq_bool_iff.
    + lra.
  - destruct (Qcompare_spec q p) as [H|H|H]; simpl.
    + assert (Qle_bool q p = true) by (apply Qle_bool_iff; lra). congruence.
    + assert (Qle_bool q p = true) by (apply Qle_bool_iff; lra). congruence.
    + destruct (Qeq_bool q p) eqn:E'; [|done].
      apply Qeq_bool_iff in E'. lra.
Qed.

Lemma is_finite_inv (a : num) : is_finite a -> exists q, a = Fin q.
Proof. destruct a; simpl; try done. by eexists. Qed.



Lemma sub_finite (a b : num) : is_finite a -> is_finite b -> is_finite (a - b).
Proof. by destruct a, b. Qed.




End NumFacts.

(** ** ForecastEngine *)

Section ForecastFacts.

Import Forecast.

Lemma clamp_fin (q : Q) : between 0.1 0.9 (clamp (Fin q)).
Proof.
  unfold clamp, Math_max, Math_min. cbn [isNaN orb].
  destruct (Fin 0.1 <? Fin q)%num eqn:E1; cbn [isNaN orb].
  - apply lt_fin in E1.
    destruct (Fin q <? Fin 0.9)%num eqn:E2; cbn [between].
    + apply lt_fin in E2. lra.
    + lra.
  - apply lt_fin_false in E1.
    replace (Fin 0.1 <? Fin 0.9)%num with true by done. cbn [between]. lra.
Qed.

Lemma clamp_fixed (q : Q) : 0.1 <= q <= 0.9 -> clamp (Fin q) ==n Fin q.
Proof.
  intros [H1 H2].
  unfold clamp, Math_max, Math_min. cbn [isNaN orb].
  destruct (Fin 0.1 <? Fin q)%num eqn:E1; cbn [isNaN orb].
  - destruct (Fin q <? Fin 0.9)%num eqn:E2; cbn [num_eq]; [reflexivity|].
    apply lt_fin_false in E2. lra.
  - apply lt_fin_false in E1.
    replace (Fin 0.1 <? Fin 0.9)%num with true by done. cbn [num_eq]. lra.
Qed.

Lemma forecast_loop_length (a b : num) (n i fuel : nat) :
  length (forecast_loop a b n i fuel) = fuel.
Proof. revert i. induction fuel as [|fuel IH]; intros i; simpl; [done|]. by rewrite IH. Qed.




Lemma regression_denominator (n : nat) (sx sx2 : Q) :
  (2 <= n)%nat ->
  2 * sx == inject_Z (Z.of_nat n) * (inject_Z (Z.of_nat n) - 1) ->
  6 * sx2 == (inject_Z (Z.of_nat n) - 1) * inject_Z (Z.of_nat n)
             * (2 * inject_Z (Z.of_nat n) - 1) ->
  0 < inject_Z (Z.of_nat n) * sx2 - sx * sx.
Proof.
  intros Hn Hx Hx2.
  assert (Hz : 2 <= inject_Z (Z.of_nat n)).
  { change 2 with (inject_Z 2). rewrite <- Zle_Qle. lia. }
  set (z := inject_Z (Z.of_nat n)) in *.
  assert (E : 12 * (z * sx2 - sx * sx) == z * z * (z - 1) * (z + 1)).
  { transitivity (2 * z * (6 * sx2) - 3 * ((2 * sx) * (2 * sx))); [ring|].
    rewrite Hx, Hx2. ring. }
  assert (0 < z * z * (z - 1) * (z + 1)); [|lra].
  repeat apply Qmult_lt_0_compat; lra.
Qed.





End ForecastFacts.





(** ** HealthClassifier *)

Section ClassifierFacts.

(** Case analysis on the four threshold tests of a value. *)
Ltac ladder q :=
  let cut c :=
    let E := fresh "E" in
    destruct (Qle_bool c q) eqn:E;
    [apply Qle_bool_iff in E
    |apply not_true_iff_false in E; rewrite Qle_bool_iff in E] in
  cut 0.7; cut 0.55; cut 0.4; cut 0.25.

Lemma bucket_of_fin (q : Q) :
  (0.7 <= q -> bucket_of (Fin q) = Excellent)
  /\ (0.55 <= q < 0.7 -> bucket_of (Fin q) = Good)
  /\ (0.4 <= q < 0.55 -> bucket_of (Fin q) = Moderate)
  /\ (0.25 <= q < 0.4 -> bucket_of (Fin q) = Poor)
  /\ (q < 0.25 -> bucket_of (Fin q) = Critical).
Proof.
  unfold bucket_of. ladder q;
  repeat split; intros; try reflexivity; exfalso; lra.
Qed.

Lemma rank_mono (p q : Q) :
  p <= q -> (rank (bucket_of (Fin p)) <= rank (bucket_of (Fin q)))%nat.
Proof.
  intros Hpq. unfold bucket_of.
  ladder p; ladder q; cbn [rank]; first [lia | exfalso; lra].
Qed.

End ClassifierFacts.

(** C7: the per-cell ladder, the colour ladder and the summary ladder all
    classify a value by the same five buckets, cut at 0.70, 0.55, 0.40 and
    0.25 with the lower bound inclusive (so each cut point itself falls in
    the higher bucket); the buckets are ordered, and the five labels of
    each wording are pairwise distinct, so a value gets exactly one. *)
Theorem health_ladders_partition :
  (forall ndvi : num,
     health_of ndvi = cell_label (bucket_of ndvi)
     /\ color_of ndvi = bucket_color (bucket_of ndvi)
     /\ overallHealth_of ndvi = overall_label (bucket_of ndvi))
  /\ (forall q : Q,
        (0.7 <= q -> bucket_of (Fin q) = Excellent)
        /\ (0.55 <= q < 0.7 -> bucket_of (Fin q) = Good)
        /\ (0.4 <= q < 0.55 -> bucket_of (Fin q) = Moderate)
        /\ (0.25 <= q < 0.4 -> bucket_of (Fin q) = Poor)
        /\ (q < 0.25 -> bucket_of (Fin q) = Critical))
  /\ (health_of (Fin 0.7) = cell_label Excellent
      /\ health_of (Fin 0.55) = cell_label Good
      /\ health_of (Fin 0.4) = cell_label Moderate
      /\ health_of (Fin 0.25) = cell_label Poor)
  /\ (forall p q : Q,
        p <= q -> (rank (bucket_of (Fin p)) <= rank (bucket_of (Fin q)))%nat)
  /\ (forall b c : bucket,
        (cell_label b = cell_label c -> b = c)
        /\ (overall_label b = overall_label c -> b = c)
        /\ (bucket_color b = bucket_color c -> b = c)).
Proof.
  split; [|split; [|split; [|split]]].
  - intros [| |q|]; try (repeat split; reflexivity).
    unfold health_of, color_of, overallHealth_of, bucket_of.
    rewrite !ge_fin.
    by destruct (Qle_bool 0.7 q), (Qle_bool 0.55 q), (Qle_bool 0.4 q),
      (Qle_bool 0.25 q).
  - apply bucket_of_fin.
  - repeat split; reflexivity.
  - apply rank_mono.
  - intros [] []; repeat split; intros H; first [reflexivity | discriminate H].
Qed.

(** ** BBoxCalculator *)

Section BBoxFacts.

(** The four accumulators of the [forEach] evolve independently. *)
Lemma raw_extent_components (polygon : list point) (a b c d : num) :
  foldl extend (a, b, c, d) polygon
  = (foldl Math_min a (fst <$> polygon), foldl Math_max b (fst <$> polygon),
     foldl Math_min c (snd <$> polygon), foldl Math_max d (snd <$> polygon)).
Proof.
  revert a b c d. induction polygon as [|p polygon IH]; intros a b c d; [done|].
  cbn [foldl fmap list_fmap]. unfold extend at 2. by rewrite IH.
Qed.

(** A running minimum that starts at [Infinity] or at a finite number. *)
Lemma foldl_min_bound (l : list Q) (m : num) :
  m = PInf \/ is_finite m ->
  (l = [] /\ foldl Math_min m (Fin <$> l) = m)
  \/ (exists r, foldl Math_min m (Fin <$> l) = Fin r
                /\ (forall x, x ∈ l -> r <= x)).
Proof.
  revert m. induction l as [|x l IH]; intros m Hm; [by left|].
  right. cbn [fmap list_fmap foldl].
  assert (Hstep : exists y, Math_min m (Fin x) = Fin y /\ y <= x).
  { destruct Hm as [->|Hm].
    - exists x. split; [done|lra].
    - apply is_finite_inv in Hm as [qm ->].
      unfold Math_min. cbn [isNaN orb].
      destruct (Fin x <? Fin qm)%num eqn:E.
      + exists x. split; [done|lra].
      + apply lt_fin_false in E. by exists qm. }
  destruct Hstep as (y & -> & Hy).
  destruct (IH (Fin y)) as [[-> Hr]|(r & Hr & Hb)]; [by right| |].
  - exists y. split; [done|]. intros z Hz.
    apply list_elem_of_singleton in Hz as ->. done.
  - exists r. split; [done|].
    intros z [->|Hz]%elem_of_cons; [|by apply Hb].
    assert (Hry : r <= y); [|lra].
    clear -Hr. revert y r Hr.
    induction l as [|w l IHl]; intros y r Hr.
    + cbn in Hr. injection Hr as ->. lra.
    + cbn [fmap list_fmap foldl] in Hr.
      unfold Math_min at 2 in Hr. cbn [isNaN orb] in Hr.
      destruct (Fin w <? Fin y)%num eqn:E.
      * apply lt_fin in E. apply IHl in Hr. lra.
      * by apply IHl in Hr.
Qed.

Lemma foldl_max_bound (l : list Q) (m : num) :
  m = NInf \/ is_finite m ->
  (l = [] /\ foldl Math_max m (Fin <$> l) = m)
  \/ (exists r, foldl Math_max m (Fin <$> l) = Fin r
                /\ (forall x, x ∈ l -> x <= r)).
Proof.
  revert m. induction l as [|x l IH]; intros m Hm; [by left|].
  right. cbn [fmap list_fmap foldl].
  assert (Hstep : exists y, Math_max m (Fin x) = Fin y /\ x <= y).
  { destruct Hm as [->|Hm].
    - exists x. split; [done|lra].
    - apply is_finite_inv in Hm as [qm ->].
      unfold Math_max. cbn [isNaN orb].
      destruct (Fin qm <? Fin x)%num eqn:E.
      + exists x. split; [done|lra].
      + apply lt_fin_false in E. by exists qm. }
  destruct Hstep as (y & -> & Hy).
  destruct (IH (Fin y)) as [[-> Hr]|(r & Hr & Hb)]; [by right| |].
  - exists y. split; [done|]. intros z Hz.
    apply list_elem_of_singleton in Hz as ->. done.
  - exists r. split; [done|].
    intros z [->|Hz]%elem_of_cons; [|by apply Hb].
    assert (Hry : y <= r); [|lra].
    clear -Hr. revert y r Hr.
    induction l as [|w l IHl]; intros y r Hr.
    + cbn in Hr. injection Hr as ->. lra.
    + cbn [fmap list_fmap foldl] in Hr.
      unfold Math_max at 2 in Hr. cbn [isNaN orb] in Hr.
      destruct (Fin y <? Fin w)%num eqn:E.
      * apply lt_fin in E. apply IHl in Hr. lra.
      * by apply IHl in Hr.
Qed.

Lemma finite_list_inv (l : list num) :
  Forall is_finite l -> exists qs, l = Fin <$> qs.
Proof.
  induction 1 as [|a l Ha _ [qs ->]]; [by exists []|].
  apply is_finite_inv in Ha as [q ->]. by exists (q :: qs).
Qed.

(** One axis of the padded box: strict as soon as two coordinates differ. *)
Lemma padded_axis_strict (l : list num) (u v : num) :
  Forall is_finite l -> u ∈ l -> v ∈ l -> (u <? v)%num = true ->
  let lo := foldl Math_min PInf l in
  let hi := foldl Math_max NInf l in
  let pad := ((hi - lo) * Fin 0.1)%num in
  ((lo - pad) <? (hi + pad))%num = true.
Proof.
  intros Hfin Hu Hv Huv.
  destruct (finite_list_inv l Hfin) as [qs ->].
  apply list_elem_of_fmap in Hu as (x & -> & Hx).
  apply list_elem_of_fmap in Hv as (y & -> & Hy).
  apply lt_fin in Huv.
  destruct (foldl_min_bound qs PInf) as [[-> _]|(a & -> & Ha)];
    [by left|by apply elem_of_nil in Hx|].
  destruct (foldl_max_bound qs NInf) as [[-> _]|(b & -> & Hb)];
    [by left|by apply elem_of_nil in Hx|].
  cbv zeta. cbn [sub neg add mul]. apply lt_fin.
  pose proof (Ha x Hx). pose proof (Hb y Hy). lra.
Qed.

End BBoxFacts.

(** C3 (as stated, refuted): three distinct vertices on one meridian give
    a box of zero width; the padding is 10% of a zero span. *)
Lemma bbox_of_collinear_vertices :
  let polygon := [(Fin 0, Fin 0); (Fin 0, Fin 1); (Fin 0, Fin 2)] in
  NoDup polygon
  /\ minLng (bbox_of polygon) ==n maxLng (bbox_of polygon)
  /\ (minLng (bbox_of polygon) <? maxLng (bbox_of polygon))%num = false.
Proof.
  cbv zeta. split; [|split; reflexivity].
  repeat (apply NoDup_cons; split;
          [rewrite ?elem_of_cons, elem_of_nil; intuition discriminate|]).
  apply NoDup_nil_2.
Qed.

(** C3 (amended): for a polygon of finite coordinates that has two
    vertices of different longitude and two vertices of different
    latitude, the padded box satisfies minLng < maxLng and
    minLat < maxLat. *)
Theorem padded_bbox_strict (polygon : list point) (p q r s : point) :
  Forall finite_point polygon ->
  p ∈ polygon -> q ∈ polygon -> (p.1 <? q.1)%num = true ->
  r ∈ polygon -> s ∈ polygon -> (r.2 <? s.2)%num = true ->
  (minLng (bbox_of polygon) <? maxLng (bbox_of polygon))%num = true
  /\ (minLat (bbox_of polygon) <? maxLat (bbox_of polygon))%num = true.
Proof.
  intros Hfin Hp Hq Hpq Hr Hs Hrs.
  unfold bbox_of, raw_extent. rewrite raw_extent_components. cbn [minLng maxLng minLat maxLat].
  split.
  - apply (padded_axis_strict (fst <$> polygon) p.1 q.1); try done.
    + apply Forall_fmap. eapply Forall_impl; [exact Hfin|]. by intros ? [? ?].
    + by apply list_elem_of_fmap_2.
    + by apply list_elem_of_fmap_2.
  - apply (padded_axis_strict (snd <$> polygon) r.2 s.2); try done.
    + apply Forall_fmap. eapply Forall_impl; [exact Hfin|]. by intros ? [? ?].
    + by apply list_elem_of_fmap_2.
    + by apply list_elem_of_fmap_2.
Qed.

Lemma padded_bbox_strict_witness :
  let polygon := [(Fin 0, Fin 0); (Fin 0, Fin 1); (Fin 1, Fin 1); (Fin 1, Fin 0)] in
  (minLng (bbox_of polygon) <? maxLng (bbox_of polygon))%num = true
  /\ (minLat (bbox_of polygon) <? maxLat (bbox_of polygon))%num = true.
Proof.
  cbv zeta.
  apply (padded_bbox_strict
           [(Fin 0, Fin 0); (Fin 0, Fin 1); (Fin 1, Fin 1); (Fin 1, Fin 0)]
           (Fin 0, Fin 0) (Fin 1, Fin 1) (Fin 0, Fin 0) (Fin 1, Fin 1)).
  - repeat constructor.
  - apply list_elem_of_here.
  - do 2 apply list_elem_of_further. apply list_elem_of_here.
  - reflexivity.
  - apply list_elem_of_here.
  - do 2 apply list_elem_of_further. apply list_elem_of_here.
  - reflexivity.
Defined.

(** ** GridBuilder *)

Section GridFacts.

Lemma three_by_three (matrix : list (list num)) :
  length matrix = 3%nat -> Forall (fun row => length row = 3%nat) matrix ->
  exists a0 a1 a2 b0 b1 b2 c0 c1 c2,
    matrix = [[a0; a1; a2]; [b0; b1; b2]; [c0; c1; c2]].
Proof.
  intros Hlen Hrows.
  destruct matrix as [|[|a0 [|a1 [|a2 [|]]]] [|[|b0 [|b1 [|b2 [|]]]]
    [|[|c0 [|c1 [|c2 [|]]]] [|]]]]; try done;
    repeat (apply Forall_cons_1 in Hrows as [? Hrows]); try done.
  by eexists _, _, _, _, _, _, _, _, _.
Qed.

(** The two loops on a 3x3 matrix, unrolled: column [i] outermost. *)
Lemma generateGridFromMatrix_3x3 (bbox : BBox)
    (a0 a1 a2 b0 b1 b2 c0 c1 c2 : num) :
  generateGridFromMatrix bbox [[a0; a1; a2]; [b0; b1; b2]; [c0; c1; c2]]
  = Ok (mkGridResult
          [grid_cell bbox a0 0 0; grid_cell bbox b0 0 1; grid_cell bbox c0 0 2;
           grid_cell bbox a1 1 0; grid_cell bbox b1 1 1; grid_cell bbox c1 1 2;
           grid_cell bbox a2 2 0; grid_cell bbox b2 2 1; grid_cell bbox c2 2 2]
          (JS.sum [a0; b0; c0; a1; b1; c1; a2; b2; c2] / Fin 9)%num).
Proof. reflexivity. Qed.

End GridFacts.

(** C8: on a 3x3 matrix the grid builder returns normally with exactly 9
    cells; the cell built for column [i] and row [j] stands at position
    [3 i + j], carries [matrix[j][i]] as its NDVI and has the closed
    5-point rectangle of cell [(i, j)] as its ring (first point equal to
    the last); the returned average is the sum of the 9 cell values
    divided by 9. *)
Theorem grid_builder_cells (bbox : BBox) (matrix : list (list num)) :
  length matrix = 3%nat -> Forall (fun row => length row = 3%nat) matrix ->
  exists g,
    generateGridFromMatrix bbox matrix = Ok g
    /\ length (features g) = 9%nat
    /\ (forall i j : nat, (i < 3)%nat -> (j < 3)%nat ->
          exists cell row,
            features g !! (3 * i + j)%nat = Some cell
            /\ matrix !! j = Some row /\ row !! i = Some (ndvi cell)
            /\ coordinates cell = cell_ring bbox i j
            /\ length (coordinates cell) = 5%nat
            /\ head (coordinates cell) = last (coordinates cell))
    /\ avgNdvi g = (JS.sum (ndvi <$> features g) / Fin 9)%num.
Proof.
  intros Hlen Hrows.
  destruct (three_by_three matrix Hlen Hrows)
    as (a0 & a1 & a2 & b0 & b1 & b2 & c0 & c1 & c2 & ->).
  rewrite generateGridFromMatrix_3x3.
  eexists. split; [reflexivity|]. cbn [features avgNdvi].
  split; [reflexivity|]. split; [|reflexivity].
  intros i j Hi Hj.
  destruct i as [|[|[|i]]]; [| | |lia];
    (destruct j as [|[|[|j]]]; [| | |lia]);
    cbn [Nat.mul Nat.add lookup list_lookup];
    eexists _, _; repeat split.
Qed.

Lemma grid_builder_cells_witness :
  exists g,
    generateGridFromMatrix (mkBBox (Fin 0) (Fin 0) (Fin 3) (Fin 6))
      [[Fin 0.1; Fin 0.2; Fin 0.3]; [Fin 0.4; Fin 0.5; Fin 0.6];
       [Fin 0.7; Fin 0.8; Fin 0.9]] = Ok g
    /\ length (features g) = 9%nat.
Proof.
  destruct (grid_builder_cells (mkBBox (Fin 0) (Fin 0) (Fin 3) (Fin 6))
      [[Fin 0.1; Fin 0.2; Fin 0.3]; [Fin 0.4; Fin 0.5; Fin 0.6];
       [Fin 0.7; Fin 0.8; Fin 0.9]]) as (g & Hg & Hn & _).
  - reflexivity.
  - repeat constructor.
  - exists g. by split.
Defined.

(** ** StressZoneDetector *)

Section StressFacts.

Lemma filter_length_le {A} (f : A -> bool) (l : list A) :
  (length (List.filter f l) <= length l)%nat.
Proof.
  induction l as [|x l IH]; simpl; [done|].
  destruct (f x); simpl; lia.
Qed.

Lemma filter_sublist {A} (f : A -> bool) (l : list A) :
  sublist (List.filter f l) l.
Proof.
  induction l as [|x l IH]; simpl; [done|].
  destruct (f x); by constructor.
Qed.

End StressFacts.

(** C9: on a 9-cell grid the detector keeps exactly the cells whose NDVI
    is strictly below 0.30, in grid order (a sub-list of the grid);
    the percentage is 100 times the number [k] of kept cells over 9, that
    is [k] times 100/9, and lies in [0, 100]. *)
Theorem stress_zones_of_nine_cells (cells : list Feature) :
  length cells = 9%nat ->
  (forall f, f ∈ stressFeatures cells
             <-> f ∈ cells /\ (ndvi f <? Fin 0.3)%num = true)
  /\ sublist (stressFeatures cells) cells
  /\ (exists k : nat,
        k = length (stressFeatures cells) /\ (k <= 9)%nat
        /\ stressPercent cells ==n Fin (100 * inject_Z (Z.of_nat k) / 9)
        /\ stressPercent cells ==n Fin (inject_Z (Z.of_nat k) * (100 / 9)))
  /\ between 0 100 (stressPercent cells).
Proof.
  intros Hlen.
  assert (Hk := filter_length_le is_stressed cells).
  rewrite Hlen in Hk. fold (stressFeatures cells) in Hk.
  assert (Hq : 0 <= inject_Z (Z.of_nat (length (stressFeatures cells))) <= 9).
  { split.
    - change 0 with (inject_Z 0). rewrite <- Zle_Qle. lia.
    - change 9 with (inject_Z 9). rewrite <- Zle_Qle. lia. }
  assert (Hp : stressPercent cells
               = Fin (inject_Z (Z.of_nat (length (stressFeatures cells))) / 9 * 100)).
  { unfold stressPercent. by rewrite Hlen. }
  split; [|split; [|split]].
  - intros f. unfold stressFeatures.
    rewrite list_elem_of_In, filter_In, <- list_elem_of_In. done.
  - apply filter_sublist.
  - exists (length (stressFeatures cells)).
    split; [done|]. split; [done|].
    rewrite Hp. cbn [num_eq]. split; field.
  - rewrite Hp. cbn [between].
    set (k := inject_Z _) in *. unfold Qdiv. change (/ 9) with (1 # 9).
    lra.
Qed.

Lemma stress_zones_of_nine_cells_witness :
  let cell v := mkFeature (Fin v) (health_of (Fin v)) (color_of (Fin v)) [] in
  let cells := [cell 0.1; cell 0.3; cell 0.29; cell 0.5; cell 0.2;
                cell 0.9; cell 0.7; cell 0.31; cell 0.6] in
  sublist (stressFeatures cells) cells
  /\ between 0 100 (stressPercent cells).
Proof.
  cbv zeta.
  match goal with
  | |- sublist (stressFeatures ?l) _ /\ _ =>
      destruct (stress_zones_of_nine_cells l) as (_ & Hsub & _ & Hrange)
  end.
  - reflexivity.
  - by split.
Defined.

(** ** TimeSeriesSynthesizer *)

Section SynthesizerFacts.

Variable Math_sin : Q -> Q.
Variable draws : nat -> Q.

Lemma synthetic_loop_length (fuel : nat) (i : Z) (k : nat) :
  length (synthetic_loop Math_sin draws fuel i k) = fuel.
Proof.
  revert i k. induction fuel as [|fuel IH]; intros i k; [done|].
  cbn [synthetic_loop length]. by rewrite IH.
Qed.

Lemma synthetic_loop_lookup (fuel : nat) (i : Z) (k m : nat) :
  (m < fuel)%nat ->
  synthetic_loop Math_sin draws fuel i k !! m
  = Some (Fin (synthetic_point Math_sin (i - Z.of_nat m) (draws (k + m)%nat))).
Proof.
  revert i k m. induction fuel as [|fuel IH]; intros i k m Hm; [lia|].
  cbn [synthetic_loop].
  destruct m as [|m].
  - cbn [lookup list_lookup]. rewrite Z.sub_0_r, Nat.add_0_r. reflexivity.
  - cbn [lookup list_lookup].
    change (synthetic_loop Math_sin draws fuel (i - 1) (S k) !! m
            = Some (Fin (synthetic_point Math_sin (i - Z.of_nat (S m))
                           (draws (k + S m)%nat)))).
    rewrite IH by lia.
    replace (i - 1 - Z.of_nat m)%Z with (i - Z.of_nat (S m))%Z by lia.
    by replace (S k + m)%nat with (k + S m)%nat by lia.
Qed.

End SynthesizerFacts.

(** C4: in the fully synthetic branch, for a period [P >= 0], the series
    has [P + 1] points; the point at position [m] (oldest first) is the one
    of index [i = P - m], equal to [0.5 + sin(i/10) * 0.2 + noise] with
    [0 <= noise < 0.1] ([noise] is the draw of that iteration times 0.1);
    it lies in [0.1, 0.9], so clamping to that interval leaves it
    unchanged. *)
Theorem synthetic_series_points (Math_sin : Q -> Q) (draws : nat -> Q)
    (P : Z) (k : nat) :
  (forall x, -1 <= Math_sin x <= 1) ->
  (forall n, 0 <= draws n < 1) ->
  (0 <= P)%Z ->
  length (synthetic_values Math_sin draws P k) = Z.to_nat (P + 1)
  /\ forall m : nat, (Z.of_nat m <= P)%Z ->
       exists noise value : Q,
         0 <= noise < 0.1
         /\ value == 0.5 + 0.2 * Math_sin (inject_Z (P - Z.of_nat m) / 10) + noise
         /\ synthetic_values Math_sin draws P k !! m = Some (Fin value)
         /\ between 0.1 0.9 (Fin value)
         /\ clamp (Fin value) ==n Fin value.
Proof.
  intros Hsin Hdraw HP. unfold synthetic_values.
  split; [apply synthetic_loop_length|].
  intros m Hm.
  exists (draws (k + m)%nat * 0.1),
         (synthetic_point Math_sin (P - Z.of_nat m) (draws (k + m)%nat)).
  pose proof (Hdraw (k + m)%nat) as Hd.
  pose proof (Hsin (inject_Z (P - Z.of_nat m) / 10)) as Hs.
  assert (Hv : 0.1 <= synthetic_point Math_sin (P - Z.of_nat m) (draws (k + m)%nat)
               <= 0.9).
  { unfold synthetic_point. lra. }
  split; [lra|]. split; [unfold synthetic_point; ring|].
  split; [apply synthetic_loop_lookup; lia|].
  split; [exact Hv|by apply clamp_fixed].
Qed.

Lemma synthetic_series_points_witness :
  length (synthetic_values (fun x => Qmax (-1) (Qmin 1 x))
            (fun n => 1 # Pos.of_nat (n + 2)) 30 0) = 31%nat.
Proof.
  apply (synthetic_series_points (fun x => Qmax (-1) (Qmin 1 x))
           (fun n => 1 # Pos.of_nat (n + 2)) 30 0).
  - intros x. split.
    + apply Q.le_max_l.
    + apply Q.max_lub; [done|apply Q.le_min_l].
  - intros n. split; [done|].
    unfold Qlt. cbn [Qnum Qden]. lia.
  - lia.
Defined.

(** ** GridAggregator *)


Section AggregatorFacts.

(** A loop whose body adds a list of values to [(sum, count)]. *)
Lemma for_loop_collect (body : Z -> num * Z -> outcome (num * Z))
    (g : Z -> list num) (fuel : nat) (lo : Z) (s : num) (c : Z) :
  (forall x s c, (lo <= x < lo + Z.of_nat fuel)%Z ->
     body x (s, c) = Ok (foldl add s (g x), (c + Z.of_nat (length (g x)))%Z)) ->
  for_loop fuel lo body (s, c)
  = Ok (foldl add s (seqZ lo (Z.of_nat fuel) ≫= g),
        (c + Z.of_nat (length (seqZ lo (Z.of_nat fuel) ≫= g)))%Z).
Proof.
  revert lo s c. induction fuel as [|fuel IH]; intros lo s c Hbody.
  - cbn [for_loop]. rewrite seqZ_nil by lia. cbn. by rewrite Z.add_0_r.
  - cbn [for_loop]. rewrite Hbody by lia. cbn [Exn.bind].
    rewrite IH by (intros; apply Hbody; lia).
    rewrite (seqZ_cons lo (Z.of_nat (S fuel))) by lia.
    rewrite bind_cons, foldl_app, length_app.
    replace (Z.pred (Z.of_nat (S fuel))) with (Z.of_nat fuel) by lia.
    replace (Z.succ lo) with (lo + 1)%Z by lia.
    do 2 f_equal. lia.
Qed.

Lemma for_range_collect (body : Z -> num * Z -> outcome (num * Z))
    (g : Z -> list num) (lo hi : Z) (s : num) (c : Z) :
  (forall x s c, (lo <= x < hi)%Z ->
     body x (s, c) = Ok (foldl add s (g x), (c + Z.of_nat (length (g x)))%Z)) ->
  for_range lo hi body (s, c)
  = Ok (foldl add s (seqZ lo (hi - lo) ≫= g),
        (c + Z.of_nat (length (seqZ lo (hi - lo) ≫= g)))%Z).
Proof.
  intros Hbody. unfold for_range.
  rewrite (for_loop_collect body g) by (intros; apply Hbody; lia).
  destruct (Z.le_gt_cases 0 (hi - lo)).
  - by rewrite Z2Nat.id.
  - replace (Z.to_nat (hi - lo)) with 0%nat by lia. by rewrite !seqZ_nil by lia.
Qed.

(** One visit of a pixel whose row exists. *)
Lemma visit_collect (r : raster) (x y : Z) (s : num) (c : Z) :
  (0 <= x < 100)%Z -> (0 <= y < 100)%Z -> (100 <= length r)%nat ->
  visit r x y (s, c)
  = Ok (foldl add s (valid_pixel r x y),
        (c + Z.of_nat (length (valid_pixel r x y)))%Z).
Proof.
  intros Hx Hy Hr. unfold visit, pixel, valid_pixel, pixel_at.
  destruct (Z.ltb_spec x 100); [|lia].
  destruct (Z.ltb_spec y 100); [|lia].
  cbn [andb].
  destruct (lookup_lt_is_Some_2 r (Z.to_nat y)) as [row ->]; [lia|].
  cbn [mbind option_bind outcome_bind Exn.bind]. unfold get.
  destruct (row !! Z.to_nat x) as [v|]; unfold default; cbn [from_option id].
  - destruct (isNaN v); cbn [negb foldl length fst snd]; by rewrite ?Z.add_0_r.
  - cbn [isNaN negb foldl length]. by rewrite Z.add_0_r.
Qed.

Lemma bound_values :
  bound 0 = 0%Z /\ bound 1 = 33%Z /\ bound 2 = 66%Z /\ bound 3 = 100%Z.
Proof. repeat split; reflexivity. Qed.

Lemma bound_range (i : Z) :
  (0 <= i < 3)%Z ->
  (0 <= bound i)%Z /\ (bound (i + 1) <= 100)%Z
  /\ spec_bound 100 i = bound i /\ spec_bound 100 (i + 1) = bound (i + 1).
Proof.
  intros Hi.
  assert (i = 0 \/ i = 1 \/ i = 2)%Z as [->|[->| ->]] by lia;
    repeat split; done.
Qed.

(** The two pixel loops of a block compute the sum and the number of the
    valid pixels of the block. *)
Lemma block_acc_collect (r : raster) (i j : Z) :
  (100 <= length r)%nat -> (0 <= i < 3)%Z -> (0 <= j < 3)%Z ->
  block_acc r i j
  = Ok (JS.sum (block_pixels 100 100 r i j),
        Z.of_nat (length (block_pixels 100 100 r i j))).
Proof.
  intros Hr Hi Hj. unfold block_acc, block_pixels, JS.sum.
  destruct (bound_range i Hi) as (Hi0 & Hi1 & -> & ->).
  destruct (bound_range j Hj) as (Hj0 & Hj1 & -> & ->).
  cbv zeta.
  rewrite (for_range_collect _
    (fun x => seqZ (bound j) (bound (j + 1) - bound j) ≫= valid_pixel r x)).
  - by rewrite Z.add_0_l.
  - intros x s c Hx.
    apply for_range_collect. intros y s' c' Hy.
    apply visit_collect; [lia|lia|done].
Qed.

Lemma mean_or_zero_block (ps : list num) :
  mean_or_zero (JS.sum ps, Z.of_nat (length ps)) = block_mean ps.
Proof.
  unfold mean_or_zero, block_mean. cbn [fst snd].
  destruct ps as [|p ps]; [done|].
  destruct (Z.ltb_spec 0 (Z.of_nat (length (p :: ps)))) as [_|H]; [done|].
  simpl in H. lia.
Qed.

Lemma for_range_0_3 {S} (body : Z -> S -> outcome S) (s : S) :
  for_range 0 3 body s
  = (s1 ← body 0%Z s; s2 ← body 1%Z s1; body 2%Z s2).
Proof.
  unfold for_range. change (Z.to_nat (3 - 0)) with 3%nat.
  cbn [for_loop]. unfold mbind, outcome_bind.
  destruct (body 0%Z s) as [s1|]; [|done]. cbn [Exn.bind].
  change (0 + 1)%Z with 1%Z.
  destruct (body 1%Z s1) as [s2|]; [|done]. cbn [Exn.bind].
  change (1 + 1)%Z with 2%Z.
  by destruct (body 2%Z s2).
Qed.

(** On a raster with (at least) 100 rows the aggregator returns the
    matrix of block means. *)
Lemma aggregateTo3x3_spec (r : raster) :
  (100 <= length r)%nat ->
  aggregateTo3x3 r = Ok (spec_aggregate 100 100 r).
Proof.
  intros Hr. unfold aggregateTo3x3.
  rewrite for_range_0_3.
  repeat (cbv beta; rewrite ?for_range_0_3;
          rewrite block_acc_collect by (done || lia);
          unfold mbind, outcome_bind; cbn [Exn.bind]).
  rewrite !mean_or_zero_block.
  reflexivity.
Qed.

End AggregatorFacts.

Section AggregatorBounds.

Lemma bind_all_nil {A B} (f : A -> list B) (l : list A) :
  (forall x, f x = []) -> l ≫= f = [].
Proof.
  intros Hf. induction l as [|x l IH]; [done|].
  by rewrite bind_cons, Hf, IH.
Qed.

Lemma valid_pixel_no_data (r : raster) (x y : Z) :
  Forall (Forall (fun v => isNaN v = true)) r -> valid_pixel r x y = [].
Proof.
  intros Hr. unfold valid_pixel, pixel_at.
  destruct (r !! Z.to_nat y) as [row|] eqn:Erow; [|done].
  cbn [mbind option_bind].
  destruct (row !! Z.to_nat x) as [v|] eqn:Ev; [|done].
  assert (Hrow : Forall (fun v => isNaN v = true) row)
    by (by eapply (Forall_lookup_1 _ r)).
  by rewrite (Forall_lookup_1 _ _ _ _ Hrow Ev).
Qed.

Lemma block_pixels_no_data (W H : nat) (r : raster) (i j : Z) :
  Forall (Forall (fun v => isNaN v = true)) r -> block_pixels W H r i j = [].
Proof.
  intros Hr. unfold block_pixels.
  apply bind_all_nil. intros x. apply bind_all_nil. intros y.
  by apply valid_pixel_no_data.
Qed.

(** Every value averaged in a block is a non-NaN entry of the raster. *)
Lemma block_pixels_valid (P : num -> Prop) (W H : nat) (r : raster) (i j : Z) :
  Forall (Forall (fun v => isNaN v = true \/ P v)) r ->
  Forall P (block_pixels W H r i j).
Proof.
  intros Hr. unfold block_pixels.
  apply Forall_bind, Forall_forall. intros x _.
  apply Forall_bind, Forall_forall. intros y _.
  unfold valid_pixel, pixel_at, compose. cbv beta.
  destruct (r !! Z.to_nat y) as [row|] eqn:Erow; [|apply Forall_nil_2].
  cbn [mbind option_bind].
  destruct (row !! Z.to_nat x) as [v|] eqn:Ev; [|apply Forall_nil_2].
  destruct (isNaN v) eqn:EN; [apply Forall_nil_2|].
  apply Forall_singleton.
  assert (Hrow : Forall (fun v => isNaN v = true \/ P v) row)
    by (by eapply (Forall_lookup_1 _ r)).
  destruct (Forall_lookup_1 _ _ _ _ Hrow Ev) as [Hv|Hv]; [congruence|done].
Qed.

Lemma sum_between (ps : list num) (s0 : Q) :
  Forall (between (-1) 1) ps ->
  exists s, foldl add (Fin s0) ps = Fin s
            /\ s0 - inject_Z (Z.of_nat (length ps)) <= s
               <= s0 + inject_Z (Z.of_nat (length ps)).
Proof.
  intros Hps. revert s0.
  induction Hps as [|p ps Hp _ IH]; intros s0.
  - exists s0. split; [done|]. change (inject_Z (Z.of_nat (length []))) with 0. lra.
  - destruct p as [| |q|]; cbn [between] in Hp; try done.
    cbn [foldl add].
    destruct (IH (s0 + q)) as (s & -> & Hs).
    exists s. split; [done|].
    cbn [length]. rewrite Nat2Z.inj_succ, <- Z.add_1_r, inject_Z_plus.
    change (inject_Z 1) with 1. lra.
Qed.

(** The mean of values of [-1, 1], or the zero fill, is in [-1, 1]. *)
Lemma block_mean_between (ps : list num) :
  Forall (between (-1) 1) ps -> between (-1) 1 (block_mean ps).
Proof.
  intros Hps. unfold block_mean.
  destruct ps as [|p ps]; [cbn [between]; lra|].
  unfold JS.sum.
  destruct (sum_between (p :: ps) 0 Hps) as (s & -> & Hs).
  set (n := inject_Z (Z.of_nat (length (p :: ps)))) in *.
  assert (Hn : 0 < n).
  { unfold n. change 0 with (inject_Z 0). rewrite <- Zlt_Qlt. simpl. lia. }
  unfold of_nat, of_Z. fold n.
  rewrite div_fin by lra. cbn [between].
  split.
  - apply Qle_shift_div_l; [done|]. lra.
  - apply Qle_shift_div_r; [done|]. lra.
Qed.

End AggregatorBounds.

(** C6 (as stated, refuted): the block bounds are those of a 100 x 100
    raster whatever the size of the input.  On a raster of 100 rows and one
    column of ones (W = 1, H = 100) the code fills the first column of the
    result and leaves the third at 0, where the bounds [floor(i W / 3)]
    put the only pixel column in the third block; and a raster with fewer
    than 100 rows makes the code throw. *)
Lemma aggregate_one_column_raster :
  let r := replicate 100 [Fin 1] in
  aggregateTo3x3 r
  = Ok [[Fin (33 # 33); Fin 0; Fin 0]; [Fin (33 # 33); Fin 0; Fin 0];
        [Fin (34 # 34); Fin 0; Fin 0]]
  /\ spec_aggregate 1 100 r
     = [[Fin 0; Fin 0; Fin (33 # 33)]; [Fin 0; Fin 0; Fin (33 # 33)];
        [Fin 0; Fin 0; Fin (34 # 34)]]
  /\ aggregateTo3x3 r <> Ok (spec_aggregate 1 100 r)
  /\ aggregateTo3x3 [[Fin 1]] = Throw TypeError.
Proof.
  cbv zeta.
  assert (H1 : aggregateTo3x3 (replicate 100 [Fin 1])
    = Ok [[Fin (33 # 33); Fin 0; Fin 0]; [Fin (33 # 33); Fin 0; Fin 0];
          [Fin (34 # 34); Fin 0; Fin 0]]) by (vm_compute; reflexivity).
  assert (H2 : spec_aggregate 1 100 (replicate 100 [Fin 1])
    = [[Fin 0; Fin 0; Fin (33 # 33)]; [Fin 0; Fin 0; Fin (33 # 33)];
       [Fin 0; Fin 0; Fin (34 # 34)]]) by (vm_compute; reflexivity).
  split; [exact H1|]. split; [exact H2|]. split; [|reflexivity].
  rewrite H1, H2. discriminate.
Qed.

(** C6 (amended): for every 100 x 100 raster, the aggregator returns the
    3 x 3 matrix whose entry [[j][i]] is the mean of the valid (non-NaN)
    pixels with [floor(100 i / 3) <= x < floor(100 (i+1) / 3)] and
    [floor(100 j / 3) <= y < floor(100 (j+1) / 3)], and 0 (not NaN) when
    the block has no valid pixel; a raster that is entirely no-data gives
    the all-zero matrix. *)
Theorem aggregate_100x100_block_means (r : raster) :
  length r = 100%nat -> Forall (fun row => length row = 100%nat) r ->
  aggregateTo3x3 r = Ok (spec_aggregate 100 100 r)
  /\ (forall i j : Z,
        block_pixels 100 100 r i j = [] ->
        block_mean (block_pixels 100 100 r i j) = Fin 0)
  /\ (Forall (Forall (fun v => isNaN v = true)) r ->
      aggregateTo3x3 r = Ok (replicate 3 (replicate 3 (Fin 0)))).
Proof.
  intros Hlen _.
  assert (Hspec : aggregateTo3x3 r = Ok (spec_aggregate 100 100 r))
    by (apply aggregateTo3x3_spec; lia).
  split; [exact Hspec|]. split.
  - by intros i j ->.
  - intros Hnodata. rewrite Hspec. unfold spec_aggregate.
    cbn [fmap list_fmap]. by rewrite !block_pixels_no_data.
Qed.

Lemma aggregate_100x100_block_means_witness :
  aggregateTo3x3 (replicate 100 (replicate 100 NaN))
  = Ok (replicate 3 (replicate 3 (Fin 0))).
Proof.
  apply (aggregate_100x100_block_means (replicate 100 (replicate 100 NaN))).
  - apply length_replicate.
  - apply Forall_replicate, length_replicate.
  - apply Forall_replicate, Forall_replicate. reflexivity.
Defined.

(** C10: for a 100 x 100 raster whose entries are NaN or lie in [-1, 1],
    the aggregator returns a 3 x 3 matrix all of whose cells are finite
    numbers of [-1, 1]; no cell is NaN. *)
Theorem aggregate_cells_in_range (r : raster) :
  length r = 100%nat -> Forall (fun row => length row = 100%nat) r ->
  Forall (Forall (fun v => isNaN v = true \/ between (-1) 1 v)) r ->
  exists m,
    aggregateTo3x3 r = Ok m
    /\ length m = 3%nat
    /\ Forall (fun row => length row = 3%nat /\ Forall (between (-1) 1) row) m.
Proof.
  intros Hlen _ Hrange.
  exists (spec_aggregate 100 100 r).
  split; [apply aggregateTo3x3_spec; lia|].
  split; [done|].
  unfold spec_aggregate. cbn [fmap list_fmap].
  repeat (apply Forall_cons; split; [split; [done|]|]); try apply Forall_nil_2;
    repeat (apply Forall_cons; split); try apply Forall_nil_2;
    by apply block_mean_between, block_pixels_valid.
Qed.

Lemma aggregate_cells_in_range_witness :
  exists m,
    aggregateTo3x3
      (replicate 100 (replicate 40 (Fin 0.5) ++ replicate 30 NaN
                      ++ replicate 30 (Fin (-1)))) = Ok m
    /\ length m = 3%nat.
Proof.
  destruct (aggregate_cells_in_range
    (replicate 100 (replicate 40 (Fin 0.5) ++ replicate 30 NaN
                    ++ replicate 30 (Fin (-1))))) as (m & Hm & Hl & _).
  - apply length_replicate.
  - apply Forall_replicate. rewrite !length_app, !length_replicate. reflexivity.
  - apply Forall_replicate.
    repeat apply Forall_app_2; apply Forall_replicate.
    + right. cbn [between]. lra.
    + by left.
    + right. cbn [between]. lra.
  - exists m. by split.
Defined.

(** ** AnalysisOrchestrator *)

Section HandlerFacts.

Variable Math_sin : Q -> Q.
Variable draws : nat -> Q.

Lemma acquire_failed (pw : process_world) :
  acquisition_failed pw ->
  usingRealData (acquire pw) = false /\ avgNdvi_real (acquire pw) = None.
Proof.
  intros [|status| |width height data Hvalid]; try done.
  unfold acquire, try_block. cbv zeta. by rewrite Hvalid.
Qed.

Lemma test_grid_ok (bbox : BBox) (avgNdvi : num) :
  exists g, generateGridFromMatrix bbox (test_matrix avgNdvi) = Ok g
            /\ length (features g) = 9%nat.
Proof.
  unfold test_matrix. rewrite generateGridFromMatrix_3x3.
  eexists. split; reflexivity.
Qed.

(** Once the token is obtained, a failed acquisition is answered with a
    normal result built from the synthetic series and tagged as test
    data. *)
Lemma analyze_falls_back (tw : token_world) (token : string)
    (pw : process_world) (polygon : list point) (period : Z) :
  getAccessToken tw = Ok token ->
  (3 <= length polygon)%nat ->
  acquisition_failed pw ->
  exists result,
    analyze Math_sin draws tw pw (mkRequest (Some polygon) period)
    = Status200 result
    /\ data_source result = TEST_SOURCE
    /\ time_series result = synthetic_values Math_sin draws period 0
    /\ forecast result = linearForecast (slice_last 5 (time_series result)) 7
    /\ length (health_grid result) = 9%nat
    /\ stress_zones result = stressFeatures (health_grid result).
Proof.
  intros Htoken Hlen Hfail.
  destruct (acquire_failed pw Hfail) as [Hreal Havg].
  unfold analyze. cbn [Handler.polygon Handler.period].
  destruct (Nat.ltb_spec (length polygon) 3) as [?|_]; [lia|].
  unfold analyze_body. rewrite Htoken.
  unfold mbind at 2, outcome_bind. cbn [Exn.bind]. cbv zeta.
  rewrite Hreal.
  match goal with
  | |- context [generateGridFromMatrix ?b (test_matrix ?a)] =>
      destruct (test_grid_ok b a) as (g & -> & Hg)
  end.
  unfold mbind, outcome_bind. cbn [Exn.bind try_catch].
  eexists. split; [reflexivity|].
  cbn [data_source time_series forecast health_grid stress_zones].
  by repeat split.
Qed.

(** Whatever path produced it, a normal result carries the stress zones
    and the percentage of its own grid, and the summary label of its own
    average. *)
Lemma analyze_result_fields (tw : token_world) (pw : process_world)
    (req : Request) (result : AnalysisResult) :
  analyze Math_sin draws tw pw req = Status200 result ->
  stress_zones result = stressFeatures (health_grid result)
  /\ stress_percent (summary result) = stressPercent (health_grid result)
  /\ summary_health (summary result) = overallHealth_of (avg_ndvi (summary result)).
Proof.
  unfold analyze, analyze_body.
  destruct (Handler.polygon req) as [polygon|]; [|done].
  destruct (length polygon <? 3)%nat; [done|].
  destruct (getAccessToken tw) as [token|]; [|done].
  unfold mbind at 2, outcome_bind. cbn [Exn.bind]. cbv zeta.
  destruct (acquire pw) as [[m|] [|] [avg|]];
    cbn [usingRealData avgNdvi_real ndviMatrix];
    unfold mbind, outcome_bind;
    repeat match goal with
    | |- context [aggregateTo3x3 ?m] => destruct (aggregateTo3x3 m); cbn [Exn.bind]
    | |- context [generateGridFromMatrix ?b ?m] =>
        destruct (generateGridFromMatrix b m); cbn [Exn.bind]
    end;
    cbn [try_catch]; intros H; try discriminate H;
    injection H as <-; done.
Qed.

(** An image smaller than the 100 rows the aggregator reads is not
    absorbed by the inner [catch]: the aggregation runs after it. *)
Example analyze_undersized_image :
  analyze Math_sin draws (TokenIssued "t") (ProcessImage 1 1 [Fin 1])
    (mkRequest (Some [(Fin 0, Fin 0); (Fin 0, Fin 1); (Fin 1, Fin 1)]) 2)
  = Status500 TypeError.
Proof. reflexivity. Qed.

End HandlerFacts.

(** C1 (the code departs from it): with a valid polygon, a token endpoint
    that answers with a non-success status (or cannot be reached) makes
    the handler answer with status 500, whatever the Process API would
    have returned: [getAccessToken] throws outside the inner [try]. *)
Theorem token_failure_fails_request (Math_sin : Q -> Q) (draws : nat -> Q)
    (pw : process_world) (p1 p2 p3 : point) (rest : list point)
    (period status : Z) :
  analyze Math_sin draws (TokenRefused status) pw
    (mkRequest (Some (p1 :: p2 :: p3 :: rest)) period)
  = Status500 (Error "Не удалось получить токен")
  /\ analyze Math_sin draws TokenUnreachable pw
       (mkRequest (Some (p1 :: p2 :: p3 :: rest)) period)
     = Status500 (Error "fetch").
Proof. split; reflexivity. Qed.

(** * Further properties of the code *)

(** ** The token cache *)

Section TokenCacheFacts.

Import TokenCache.

Lemma truthy_token_nonempty (tok : string) :
  tok <> ""%string -> truthy_token (Some tok) = true.
Proof.
  intros Hne. unfold truthy_token.
  destruct (String.eqb_spec tok ""); [done|reflexivity].
Qed.

(** Validity of the cache left by a successful reply. *)
Lemma cache_valid_after_reply (received now : Z) (tok : string) (e : Q) :
  tok <> ""%string ->
  cache_valid now (mkTokenState (Some tok) (of_Z received + Fin e * Fin 1000)%num)
  = true
  <-> inject_Z now < inject_Z received + e * 1000 - 300000.
Proof.
  intros Hne. unfold cache_valid. cbn [cachedToken tokenExpiry].
  rewrite (truthy_token_nonempty tok Hne). cbn [andb].
  unfold of_Z. cbn [mul add sub neg]. rewrite lt_fin. split; intros H; lra.
Qed.

End TokenCacheFacts.

(** X1: A token obtained from the endpoint is served from the cache, without
    looking at the network and without changing the state, by every call
    made earlier than 300 s before its expiry. *)
Theorem token_reused_within_window (t0 received now : Z) (tok : string)
    (e : Q) (st0 : TokenCache.TokenState)
    (reply : TokenCache.token_reply) :
  TokenCache.cache_valid t0 st0 = false ->
  tok <> ""%string ->
  inject_Z now < inject_Z received + e * 1000 - 300000 ->
  let st :=
    (TokenCache.getAccessToken t0
       (TokenCache.ReplyOk received (Some tok) (Fin e)) st0).2 in
  TokenCache.getAccessToken now reply st = (Ok (Some tok), st).
Proof.
  intros Hinvalid Hne Hnow. cbv zeta.
  assert (Hst : (TokenCache.getAccessToken t0
                   (TokenCache.ReplyOk received (Some tok) (Fin e)) st0).2
                = TokenCache.mkTokenState (Some tok)
                    (of_Z received + Fin e * Fin 1000)%num).
  { unfold TokenCache.getAccessToken. by rewrite Hinvalid. }
  rewrite Hst. unfold TokenCache.getAccessToken.
  by rewrite (proj2 (cache_valid_after_reply received now tok e Hne) Hnow).
Qed.

Lemma token_reused_within_window_witness :
  TokenCache.getAccessToken 3000000 TokenCache.FetchRejected
    (TokenCache.getAccessToken 0
       (TokenCache.ReplyOk 1000 (Some "abc"%string) (Fin 3600))
       TokenCache.initial).2
  = (Ok (Some "abc"%string),
     TokenCache.mkTokenState (Some "abc"%string) (Fin 1000 + Fin 3600 * Fin 1000)%num).
Proof.
  apply (token_reused_within_window 0 1000 3000000 "abc" 3600
           TokenCache.initial TokenCache.FetchRejected).
  - reflexivity.
  - discriminate.
  - reflexivity.
Defined.

(** X2: From 300 s before the expiry on, the cached token is no longer used:
    the call asks the endpoint again; a rejected fetch or a non-success
    reply throws and leaves the cache as it was, a successful reply
    replaces both the token and the expiry. *)
Theorem token_refetched_after_window (received now : Z) (tok : string)
    (e : Q) :
  inject_Z received + e * 1000 - 300000 <= inject_Z now ->
  let st := TokenCache.mkTokenState (Some tok) (of_Z received + Fin e * Fin 1000)%num in
  TokenCache.getAccessToken now TokenCache.FetchRejected st
  = (Throw (Error "fetch"), st)
  /\ (forall status,
        TokenCache.getAccessToken now (TokenCache.ReplyNotOk status) st
        = (Throw (Error "Не удалось получить токен"), st))
  /\ (forall received' tok' e',
        TokenCache.getAccessToken now (TokenCache.ReplyOk received' tok' e') st
        = (Ok tok',
           TokenCache.mkTokenState tok' (of_Z received' + e' * Fin 1000)%num)).
Proof.
  intros Hnow. cbv zeta.
  assert (Hinvalid : TokenCache.cache_valid now
    (TokenCache.mkTokenState (Some tok) (of_Z received + Fin e * Fin 1000)%num)
    = false).
  { unfold TokenCache.cache_valid. cbn [TokenCache.cachedToken TokenCache.tokenExpiry].
    apply andb_false_iff. right.
    unfold of_Z. cbn [mul add sub neg]. apply lt_fin_false. lra. }
  unfold TokenCache.getAccessToken. rewrite Hinvalid. by repeat split.
Qed.

Lemma token_refetched_after_window_witness :
  TokenCache.getAccessToken 3400000 TokenCache.FetchRejected
    (TokenCache.mkTokenState (Some "abc"%string) (of_Z 1000 + Fin 3600 * Fin 1000)%num)
  = (Throw (Error "fetch"),
     TokenCache.mkTokenState (Some "abc"%string) (of_Z 1000 + Fin 3600 * Fin 1000)%num).
Proof.
  apply (token_refetched_after_window 1000 3400000 "abc" 3600).
  unfold Qle. simpl. lia.
Defined.

(** ** The padded bounding box *)

Section BBoxEnclosure.


End BBoxEnclosure.



(** ** Decoding the raster: [sanitize], [to_matrix] and [acquire] *)

Section RasterFacts.

Lemma sanitize_range (v : num) :
  isNaN (sanitize v) = true \/ between (-1) 1 (sanitize v).
Proof.
  unfold sanitize. destruct v as [| |q|]; try (by left).
  destruct (Fin q <? Fin (-1))%num eqn:E1; [by left|].
  destruct (Fin 1 <? Fin q)%num eqn:E2; [by left|].
  right. cbn [orb between].
  apply lt_fin_false in E1. apply lt_fin_false in E2. lra.
Qed.

Lemma sanitize_keeps (v : num) : between (-1) 1 v -> sanitize v = v.
Proof.
  destruct v as [| |q|]; cbn [between]; try done. intros [H1 H2].
  unfold sanitize.
  replace (Fin q <? Fin (-1))%num with false
    by (symmetry; apply lt_fin_false; lra).
  by replace (Fin 1 <? Fin q)%num with false
    by (symmetry; apply lt_fin_false; lra).
Qed.

Lemma to_matrix_lookup (width height : nat) (data : list num) (x y : nat) :
  (y < height)%nat -> (x < width)%nat ->
  to_matrix width height data !! y
  = Some ((fun x => sanitize (get data (y * width + x))) <$> seq 0 width)
  /\ get (default [] (to_matrix width height data !! y)) x
     = sanitize (get data (y * width + x)).
Proof.
  intros Hy Hx. unfold to_matrix.
  rewrite list_lookup_fmap, lookup_seq_lt by done. cbn [fmap option_fmap option_map].
  split; [done|]. unfold default at 1. cbn [from_option id Nat.add].
  unfold get at 1. by rewrite list_lookup_fmap, lookup_seq_lt.
Qed.

Lemma to_matrix_entries (width height : nat) (data : list num) :
  Forall (Forall (fun v => isNaN v = true \/ between (-1) 1 v))
    (to_matrix width height data).
Proof.
  unfold to_matrix. apply Forall_fmap, Forall_forall. intros y _.
  apply Forall_fmap, Forall_forall. intros x _. apply sanitize_range.
Qed.

Lemma valid_values_between (m : raster) :
  Forall (Forall (fun v => isNaN v = true \/ between (-1) 1 v)) m ->
  Forall (between (-1) 1) (List.filter (fun v => negb (isNaN v)) (concat m)).
Proof.
  intros Hm. apply Forall_forall. intros v Hv.
  apply list_elem_of_In, filter_In in Hv as [Hin Hvalid].
  apply in_concat in Hin as (row & Hrow & Hvrow).
  apply list_elem_of_In in Hrow, Hvrow.
  rewrite Forall_forall in Hm. specialize (Hm row Hrow).
  rewrite Forall_forall in Hm. destruct (Hm v Hvrow) as [HN|Hb]; [|done].
  rewrite HN in Hvalid. done.
Qed.

End RasterFacts.

(** X5: The decoded band is laid out row-major in [height] rows of [width]
    entries; the entry of row [y] and column [x] is the sample
    [data[y * width + x]], kept when it lies in [-1, 1] and replaced by NaN
    otherwise, so every entry of the raster is NaN or a number of
    [-1, 1]. *)
Theorem to_matrix_layout (width height : nat) (data : list num) :
  length (to_matrix width height data) = height
  /\ Forall (fun row => length row = width) (to_matrix width height data)
  /\ Forall (Forall (fun v => isNaN v = true \/ between (-1) 1 v))
       (to_matrix width height data)
  /\ (forall x y : nat, (y < height)%nat -> (x < width)%nat ->
        exists row,
          to_matrix width height data !! y = Some row
          /\ row !! x = Some (sanitize (get data (y * width + x)))
          /\ (between (-1) 1 (get data (y * width + x)) ->
              row !! x = Some (get data (y * width + x)))).
Proof.
  split; [|split; [|split]].
  - unfold to_matrix. by rewrite length_fmap, length_seq.
  - unfold to_matrix. apply Forall_fmap, Forall_forall. intros y _.
    cbn. by rewrite length_fmap, length_seq.
  - apply to_matrix_entries.
  - intros x y Hy Hx.
    destruct (to_matrix_lookup width height data x y Hy Hx) as [-> _].
    eexists. split; [reflexivity|].
    rewrite list_lookup_fmap, lookup_seq_lt by done.
    cbn [fmap option_fmap option_map Nat.add]. split; [done|].
    intros Hb. by rewrite (sanitize_keeps _ Hb).
Qed.

(** X6: The inner [try] block on a decoded image: the raster is kept either
    way; without a valid pixel the request switches to test data and no
    mean is set; with one, the data counts as real and the mean of the
    valid pixels is a number of [-1, 1]. *)
Theorem acquire_image (width height : nat) (data : list num) :
  let m := to_matrix width height data in
  let valid := List.filter (fun v => negb (isNaN v)) (concat m) in
  let st := acquire (ProcessImage width height data) in
  ndviMatrix st = Some m
  /\ (valid = [] -> usingRealData st = false /\ avgNdvi_real st = None)
  /\ (valid <> [] ->
      usingRealData st = true
      /\ exists mean : Q,
           avgNdvi_real st = Some (Fin mean) /\ -1 <= mean <= 1
           /\ Fin mean = (JS.sum valid / of_nat (length valid))%num).
Proof.
  cbv zeta. unfold acquire, try_block. cbv zeta.
  pose proof (valid_values_between _ (to_matrix_entries width height data)) as Hb.
  destruct (List.filter _ (concat (to_matrix width height data)))
    as [|v valid] eqn:E.
  - by repeat split.
  - replace (length (v :: valid) =? 0)%nat with false by done.
    cbn [ndviMatrix usingRealData avgNdvi_real].
    split; [done|]. split; [done|]. intros _. split; [done|].
    pose proof (block_mean_between (v :: valid) Hb) as Hmean.
    unfold block_mean in Hmean.
    destruct (JS.sum (v :: valid) / of_nat (length (v :: valid)))%num
      as [| |mean|]; cbn [between] in Hmean; try done.
    by exists mean.
Qed.

(** ** The mean-anchored series *)

Section AnchoredFacts.

Variable Math_sin : Q -> Q.
Variable draws : nat -> Q.

Lemma anchored_loop_length (avg : num) (fuel : nat) (i : Z) (k : nat) :
  length (anchored_loop Math_sin draws avg fuel i k) = fuel.
Proof.
  revert i k. induction fuel as [|fuel IH]; intros i k; [done|].
  cbn [anchored_loop length]. by rewrite IH.
Qed.

Lemma anchored_loop_between (avg : Q) (fuel : nat) (i : Z) (k : nat) :
  Forall (between 0.1 0.9) (anchored_loop Math_sin draws (Fin avg) fuel i k).
Proof.
  revert i k. induction fuel as [|fuel IH]; intros i k; [apply Forall_nil_2|].
  cbn [anchored_loop]. constructor; [|apply IH].
  unfold of_Z. rewrite div_fin by lra. cbn [sin_num mul add sub neg].
  apply clamp_fin.
Qed.

End AnchoredFacts.

(** X7: The series built around a real mean has one point per index
    [period .. 0] and, whatever the sine and the random draws, every point
    lies in [0.1, 0.9]: each value is clamped before it is pushed. *)
Theorem anchored_series_clamped (Math_sin : Q -> Q) (draws : nat -> Q)
    (avg : Q) (period : Z) (k : nat) :
  length (anchored_values Math_sin draws (Fin avg) period k)
  = Z.to_nat (period + 1)
  /\ Forall (between 0.1 0.9) (anchored_values Math_sin draws (Fin avg) period k).
Proof.
  unfold anchored_values.
  split; [apply anchored_loop_length|apply anchored_loop_between].
Qed.

(** ** The aggregator on rasters of other sizes *)

Section AggregatorEdges.

Lemma for_loop_throw {St} (body : Z -> St -> outcome St) (e : exn)
    (k fuel : nat) (lo : Z) (s : St) :
  (k < fuel)%nat ->
  (forall x s, (lo <= x < lo + Z.of_nat k)%Z -> exists s', body x s = Ok s') ->
  (forall s, body (lo + Z.of_nat k)%Z s = Throw e) ->
  for_loop fuel lo body s = Throw e.
Proof.
  revert fuel lo s. induction k as [|k IH]; intros fuel lo s Hk Hok Hthrow.
  - destruct fuel as [|fuel]; [lia|]. cbn [for_loop].
    specialize (Hthrow s). rewrite Z.add_0_r in Hthrow. by rewrite Hthrow.
  - destruct fuel as [|fuel]; [lia|]. cbn [for_loop].
    destruct (Hok lo s) as [s' ->]; [lia|]. cbn [Exn.bind].
    apply IH; [lia| |].
    + intros x s0 Hx. apply Hok. lia.
    + intros s0. replace (lo + 1 + Z.of_nat k)%Z with (lo + Z.of_nat (S k))%Z by lia.
      apply Hthrow.
Qed.

Lemma visit_collect_row (r : raster) (x y : Z) (s : num) (c : Z) :
  (0 <= x < 100)%Z -> (0 <= y < 100)%Z -> (Z.to_nat y < length r)%nat ->
  visit r x y (s, c)
  = Ok (foldl add s (valid_pixel r x y),
        (c + Z.of_nat (length (valid_pixel r x y)))%Z).
Proof.
  intros Hx Hy Hr. unfold visit, pixel, valid_pixel, pixel_at.
  destruct (Z.ltb_spec x 100); [|lia].
  destruct (Z.ltb_spec y 100); [|lia].
  cbn [andb].
  destruct (lookup_lt_is_Some_2 r (Z.to_nat y)) as [row ->]; [lia|].
  cbn [mbind option_bind outcome_bind Exn.bind]. unfold get.
  destruct (row !! Z.to_nat x) as [v|]; unfold default; cbn [from_option id].
  - destruct (isNaN v); cbn [negb foldl length fst snd]; by rewrite ?Z.add_0_r.
  - cbn [isNaN negb foldl length]. by rewrite Z.add_0_r.
Qed.

Lemma visit_missing_row (r : raster) (x y : Z) (acc : num * Z) :
  (0 <= x < 100)%Z -> (0 <= y < 100)%Z -> (length r <= Z.to_nat y)%nat ->
  visit r x y acc = Throw TypeError.
Proof.
  intros Hx Hy Hr. unfold visit, pixel.
  destruct (Z.ltb_spec x 100); [|lia].
  destruct (Z.ltb_spec y 100); [|lia].
  cbn [andb]. by rewrite (lookup_ge_None_2 r (Z.to_nat y)).
Qed.

(** A block whose rows all exist is accumulated normally. *)
Lemma block_acc_rows (r : raster) (i j : Z) :
  (0 <= i < 3)%Z -> (0 <= j < 3)%Z -> (bound (j + 1) <= Z.of_nat (length r))%Z ->
  exists acc, block_acc r i j = Ok acc.
Proof.
  intros Hi Hj Hr. unfold block_acc. cbv zeta.
  destruct (bound_range i Hi) as (Hi0 & Hi1 & _ & _).
  destruct (bound_range j Hj) as (Hj0 & Hj1 & _ & _).
  rewrite (for_range_collect _
    (fun x => seqZ (bound j) (bound (j + 1) - bound j) ≫= valid_pixel r x)).
  - by eexists.
  - intros x s c Hx.
    apply for_range_collect. intros y s' c' Hy.
    apply visit_collect_row; lia.
Qed.

(** A block that reaches past the last row throws at the first column. *)
Lemma block_acc_missing_rows (r : raster) (j : Z) :
  (0 <= j < 3)%Z ->
  (bound j <= Z.of_nat (length r) < bound (j + 1))%Z ->
  block_acc r 0 j = Throw TypeError.
Proof.
  intros Hj Hr. unfold block_acc. cbv zeta.
  destruct (bound_range j Hj) as (Hj0 & Hj1 & _ & _).
  unfold for_range at 1.
  apply (for_loop_throw _ _ 0); [vm_compute; lia|intros; lia|].
  intros acc. change (bound 0 + Z.of_nat 0)%Z with 0%Z.
  unfold for_range.
  apply (for_loop_throw _ _ (Z.to_nat (Z.of_nat (length r) - bound j))).
  - lia.
  - intros y [s c] Hy. rewrite visit_collect_row by lia. by eexists.
  - intros acc'. apply visit_missing_row; lia.
Qed.

Lemma aggregateTo3x3_missing_rows (r : raster) :
  (length r < 100)%nat -> aggregateTo3x3 r = Throw TypeError.
Proof.
  intros Hr. unfold aggregateTo3x3.
  rewrite for_range_0_3. cbv beta. rewrite for_range_0_3. cbv beta.
  destruct (bound_values) as (B0 & B1 & B2 & B3).
  destruct (Z.lt_ge_cases (Z.of_nat (length r)) 33) as [H1|H1].
  { rewrite (block_acc_missing_rows r 0) by (change (0 + 1)%Z with 1%Z; lia).
    reflexivity. }
  destruct (block_acc_rows r 0 0) as [a0 ->];
    [lia|lia|change (0 + 1)%Z with 1%Z; lia|].
  unfold mbind at 1 2 3 4, outcome_bind. cbn [Exn.bind].
  destruct (Z.lt_ge_cases (Z.of_nat (length r)) 66) as [H2|H2].
  { rewrite (block_acc_missing_rows r 1) by (change (1 + 1)%Z with 2%Z; lia).
    reflexivity. }
  destruct (block_acc_rows r 0 1) as [a1 ->];
    [lia|lia|change (1 + 1)%Z with 2%Z; lia|].
  unfold mbind at 1 2 3, outcome_bind. cbn [Exn.bind].
  rewrite (block_acc_missing_rows r 2) by (change (2 + 1)%Z with 3%Z; lia).
  reflexivity.
Qed.

End AggregatorEdges.

(** X8: The aggregator needs 100 rows: on a raster with fewer rows it throws
    a [TypeError] (the read of a column of a missing row), and on any
    raster with at least 100 rows it returns a 3 x 3 matrix, whatever the
    length of the rows. *)
Theorem aggregate_needs_100_rows (r : raster) :
  ((length r < 100)%nat -> aggregateTo3x3 r = Throw TypeError)
  /\ ((100 <= length r)%nat ->
      exists m, aggregateTo3x3 r = Ok m
                /\ length m = 3%nat
                /\ Forall (fun row => length row = 3%nat) m).
Proof.
  split; [apply aggregateTo3x3_missing_rows|].
  intros Hr. exists (spec_aggregate 100 100 r).
  split; [by apply aggregateTo3x3_spec|].
  split; [done|]. unfold spec_aggregate. cbn [fmap list_fmap].
  by repeat constructor.
Qed.

Section AggregatorWindow.

Lemma valid_pixel_window (r : raster) (x y : Z) :
  (0 <= x < 100)%Z -> (0 <= y < 100)%Z ->
  valid_pixel (take 100 <$> take 100 r) x y = valid_pixel r x y.
Proof.
  intros Hx Hy. unfold valid_pixel, pixel_at.
  rewrite list_lookup_fmap, lookup_take_lt by lia.
  destruct (r !! Z.to_nat y) as [row|]; [|done].
  cbn [fmap option_fmap option_map mbind option_bind].
  by rewrite lookup_take_lt by lia.
Qed.

Lemma block_pixels_window (r : raster) (i j : Z) :
  (0 <= i < 3)%Z -> (0 <= j < 3)%Z ->
  block_pixels 100 100 (take 100 <$> take 100 r) i j
  = block_pixels 100 100 r i j.
Proof.
  intros Hi Hj. unfold block_pixels.
  destruct (bound_range i Hi) as (Hi0 & Hi1 & -> & ->).
  destruct (bound_range j Hj) as (Hj0 & Hj1 & -> & ->).
  apply Forall_bind_ext, Forall_seqZ. intros x Hx.
  apply Forall_bind_ext, Forall_seqZ. intros y Hy.
  apply valid_pixel_window; lia.
Qed.

End AggregatorWindow.

(** X9: The aggregator reads nothing outside the first 100 rows and the first
    100 columns: cutting the raster to that window does not change its
    result (a thrown [TypeError] included). *)
Theorem aggregate_reads_100x100_window (r : raster) :
  aggregateTo3x3 (take 100 <$> take 100 r) = aggregateTo3x3 r.
Proof.
  destruct (Nat.lt_ge_cases (length r) 100) as [Hr|Hr].
  - rewrite (aggregateTo3x3_missing_rows r Hr).
    apply aggregateTo3x3_missing_rows.
    rewrite length_fmap, length_take. lia.
  - rewrite (aggregateTo3x3_spec r Hr), aggregateTo3x3_spec
      by (rewrite length_fmap, length_take; lia).
    unfold spec_aggregate. cbn [fmap list_fmap].
    by rewrite !block_pixels_window by lia.
Qed.

Section AggregatorConstant.

Lemma sum_constant (v : Q) (ps : list num) (s0 : Q) :
  Forall (fun p => p = Fin v) ps ->
  exists s, foldl add (Fin s0) ps = Fin s
            /\ s == s0 + inject_Z (Z.of_nat (length ps)) * v.
Proof.
  intros Hps. revert s0. induction Hps as [|p ps -> _ IH]; intros s0.
  - exists s0. split; [done|]. change (inject_Z (Z.of_nat (length []))) with 0. ring.
  - cbn [foldl add]. destruct (IH (s0 + v)) as (s & -> & Hs).
    exists s. split; [done|]. rewrite Hs.
    cbn [length]. rewrite Nat2Z.inj_succ, <- Z.add_1_r, inject_Z_plus.
    change (inject_Z 1) with 1. ring.
Qed.

Lemma block_mean_constant (v : Q) (ps : list num) :
  Forall (fun p => p = Fin v) ps -> ps <> [] -> block_mean ps ==n Fin v.
Proof.
  intros Hps Hne. unfold block_mean. destruct ps as [|p ps]; [done|].
  unfold JS.sum. destruct (sum_constant v (p :: ps) 0 Hps) as (s & -> & Hs).
  set (n := inject_Z (Z.of_nat (length (p :: ps)))) in *.
  assert (Hn : 0 < n).
  { unfold n. change 0 with (inject_Z 0). rewrite <- Zlt_Qlt. simpl. lia. }
  unfold of_nat, of_Z. fold n. rewrite div_fin by lra. cbn [num_eq].
  rewrite Hs. field. lra.
Qed.

Lemma block_pixels_nonempty (r : raster) (i j : Z) (v : num) :
  (0 <= i < 3)%Z -> (0 <= j < 3)%Z ->
  (forall x y, (0 <= x < 100)%Z -> (0 <= y < 100)%Z -> valid_pixel r x y = [v]) ->
  block_pixels 100 100 r i j <> [].
Proof.
  intros Hi Hj Hvalid.
  assert (Hin : v ∈ block_pixels 100 100 r i j).
  { unfold block_pixels.
    destruct (bound_range i Hi) as (Hi0 & Hi1 & -> & ->).
    destruct (bound_range j Hj) as (Hj0 & Hj1 & -> & ->).
    assert (bound i < bound (i + 1))%Z
      by (assert (i = 0 \/ i = 1 \/ i = 2)%Z as [->|[->| ->]] by lia; done).
    assert (bound j < bound (j + 1))%Z
      by (assert (j = 0 \/ j = 1 \/ j = 2)%Z as [->|[->| ->]] by lia; done).
    apply list_elem_of_bind. exists (bound i). split; [|apply elem_of_seqZ; lia].
    apply list_elem_of_bind. exists (bound j). split; [|apply elem_of_seqZ; lia].
    rewrite Hvalid by lia. apply list_elem_of_here. }
  intros E. rewrite E in Hin. by apply elem_of_nil in Hin.
Qed.

End AggregatorConstant.

(** X10: A 100 x 100 raster whose pixels all hold the same number [v] is
    aggregated to a matrix whose nine cells are all equal to [v]. *)
Theorem aggregate_constant_raster (v : Q) (r : raster) :
  length r = 100%nat ->
  Forall (fun row => length row = 100%nat /\ Forall (fun p => p = Fin v) row) r ->
  exists m, aggregateTo3x3 r = Ok m
            /\ length m = 3%nat
            /\ Forall (fun row => length row = 3%nat
                                  /\ Forall (fun c => c ==n Fin v) row) m.
Proof.
  intros Hlen Hrows.
  exists (spec_aggregate 100 100 r).
  split; [apply aggregateTo3x3_spec; lia|]. split; [done|].
  assert (Hvalid : forall x y, (0 <= x < 100)%Z -> (0 <= y < 100)%Z ->
                               valid_pixel r x y = [Fin v]).
  { intros x y Hx Hy. unfold valid_pixel, pixel_at.
    destruct (lookup_lt_is_Some_2 r (Z.to_nat y)) as [row Hrow]; [lia|].
    rewrite Hrow. cbn [mbind option_bind].
    destruct (Forall_lookup_1 _ _ _ _ Hrows Hrow) as [Hw Hc].
    destruct (lookup_lt_is_Some_2 row (Z.to_nat x)) as [p Hp]; [lia|].
    rewrite Hp. by rewrite (Forall_lookup_1 _ _ _ _ Hc Hp). }
  assert (Hall : forall i j, Forall (fun p => p = Fin v) (block_pixels 100 100 r i j)).
  { intros i j. apply block_pixels_valid.
    eapply Forall_impl; [exact Hrows|]. intros row [_ Hc].
    eapply Forall_impl; [exact Hc|]. intros p ->. by right. }
  unfold spec_aggregate. cbn [fmap list_fmap].
  repeat (apply Forall_cons; split; [split; [done|]|]); try apply Forall_nil_2;
    repeat (apply Forall_cons; split); try apply Forall_nil_2;
    (apply block_mean_constant; [apply Hall|]);
    by apply (block_pixels_nonempty r _ _ (Fin v)).
Qed.

Lemma aggregate_constant_raster_witness :
  exists m, aggregateTo3x3 (replicate 100 (replicate 100 (Fin 0.25))) = Ok m
            /\ length m = 3%nat.
Proof.
  destruct (aggregate_constant_raster 0.25 (replicate 100 (replicate 100 (Fin 0.25))))
    as (m & Hm & Hl & _).
  - apply length_replicate.
  - apply Forall_replicate. split; [apply length_replicate|].
    by apply Forall_replicate.
  - exists m. by split.
Defined.

(** ** The grid builder on matrices of other shapes *)

Section GridEdges.

Lemma ladders_bucket (v : num) :
  health_of v = cell_label (bucket_of v)
  /\ color_of v = bucket_color (bucket_of v)
  /\ overallHealth_of v = overall_label (bucket_of v).
Proof.
  destruct v as [| |q|]; try (repeat split; reflexivity).
  unfold health_of, color_of, overallHealth_of, bucket_of.
  rewrite !ge_fin.
  by destruct (Qle_bool 0.7 q), (Qle_bool 0.55 q), (Qle_bool 0.4 q),
    (Qle_bool 0.25 q).
Qed.

(** Only the first three rows are read, and of each its first three
    entries, an absent entry reading as [undefined]. *)
Lemma generateGridFromMatrix_rows (bbox : BBox) (r0 r1 r2 : list num)
    (rest : list (list num)) :
  generateGridFromMatrix bbox (r0 :: r1 :: r2 :: rest)
  = Ok (mkGridResult
          [grid_cell bbox (get r0 0) 0 0; grid_cell bbox (get r1 0) 0 1;
           grid_cell bbox (get r2 0) 0 2;
           grid_cell bbox (get r0 1) 1 0; grid_cell bbox (get r1 1) 1 1;
           grid_cell bbox (get r2 1) 1 2;
           grid_cell bbox (get r0 2) 2 0; grid_cell bbox (get r1 2) 2 1;
           grid_cell bbox (get r2 2) 2 2]
          (JS.sum [get r0 0; get r1 0; get r2 0; get r0 1; get r1 1; get r2 1;
                   get r0 2; get r1 2; get r2 2] / Fin 9)%num).
Proof. reflexivity. Qed.

End GridEdges.

(** X11: The grid builder needs three rows: with fewer it throws a [TypeError];
    with at least three it returns 9 cells built from the first three
    entries of the first three rows only, an absent entry reading as
    [undefined] (NaN); each cell carries the label and the colour of the
    bucket of its own value. *)
Theorem grid_builder_needs_3_rows (bbox : BBox) (matrix : list (list num)) :
  ((length matrix < 3)%nat -> generateGridFromMatrix bbox matrix = Throw TypeError)
  /\ ((3 <= length matrix)%nat ->
      exists g,
        generateGridFromMatrix bbox matrix = Ok g
        /\ generateGridFromMatrix bbox
             ((fun row => get row <$> [0; 1; 2]%nat) <$> take 3 matrix) = Ok g
        /\ length (features g) = 9%nat
        /\ Forall (fun f => health f = cell_label (bucket_of (ndvi f))
                            /\ color f = bucket_color (bucket_of (ndvi f)))
             (features g)).
Proof.
  split.
  - intros Hlen.
    destruct matrix as [|r0 [|r1 [|r2 rest]]]; [reflexivity..|].
    simpl in Hlen. lia.
  - intros Hlen.
    destruct matrix as [|r0 [|r1 [|r2 rest]]]; try (simpl in Hlen; lia).
    rewrite generateGridFromMatrix_rows.
    eexists. split; [reflexivity|].
    split; [reflexivity|]. split; [reflexivity|].
    cbn [features].
    repeat (apply Forall_cons; split;
            [unfold grid_cell; cbn [health color ndvi];
             split; apply ladders_bucket|]).
    apply Forall_nil_2.
Qed.

(** X12: Stress zones against the labels: a stressed cell is labelled "плохо"
    or "критично"; a cell labelled "критично" is stressed unless its value
    is NaN; a NaN cell is labelled "критично" and is never a stress
    zone. *)
Theorem stress_zones_and_labels (bbox : BBox) (v : num) (i j : nat) :
  let cell := grid_cell bbox v i j in
  (is_stressed cell = true ->
   health cell = cell_label Poor \/ health cell = cell_label Critical)
  /\ (health cell = cell_label Critical -> isNaN v = false ->
      is_stressed cell = true)
  /\ (isNaN v = true ->
      health cell = cell_label Critical /\ is_stressed cell = false).
Proof.
  cbv zeta. unfold is_stressed, grid_cell. cbn [ndvi health].
  destruct (ladders_bucket v) as [-> _].
  destruct v as [| |q|]; cbn [isNaN];
    try (cbn; repeat split; intros; first [congruence | by right]).
  destruct (bucket_of_fin q) as (P1 & P2 & P3 & P4 & P5).
  split; [|split; [|done]].
  - intros Hs%lt_fin.
    destruct (Qlt_le_dec q 0.25); [right; by rewrite P5|left; rewrite P4; [done|lra]].
  - intros Hc _. apply lt_fin.
    destruct (Qlt_le_dec q 0.25) as [?|Hq]; [lra|].
    exfalso.
    destruct (Qlt_le_dec q 0.4); [rewrite P4 in Hc by lra; discriminate Hc|].
    destruct (Qlt_le_dec q 0.55); [rewrite P3 in Hc by lra; discriminate Hc|].
    destruct (Qlt_le_dec q 0.7); [rewrite P2 in Hc by lra; discriminate Hc|].
    rewrite P1 in Hc by lra. discriminate Hc.
Qed.

(** ** The handler: validation and the real-data path *)

Section HandlerPaths.

Variable Math_sin : Q -> Q.
Variable draws : nat -> Q.




End HandlerPaths.

(** X13: The handler answers 400 exactly when the polygon is missing or has
    fewer than 3 vertices; the collaborators play no part in it. *)
Theorem analyze_rejects_short_polygon (Math_sin : Q -> Q) (draws : nat -> Q)
    (tw : token_world) (pw : process_world) (req : Request) :
  analyze Math_sin draws tw pw req = Status400
  <-> Handler.polygon req = None
      \/ exists vertices, Handler.polygon req = Some vertices
                          /\ (length vertices < 3)%nat.
Proof.
  unfold analyze.
  destruct (Handler.polygon req) as [vertices|]; [|by split; [left|]].
  destruct (Nat.ltb_spec (length vertices) 3) as [Hlt|Hge].
  - split; [|done]. intros _. right. by exists vertices.
  - split.
    + destruct (analyze_body _ _ _ _ _ _); cbn; discriminate.
    + intros [?|(v & [= <-] & ?)]; [done|lia].
Qed.



(** ** The handler: the test-data path *)

Section FallbackFacts.

Variable Math_sin : Q -> Q.
Variable draws : nat -> Q.
Hypothesis sin_bounded : forall x, -1 <= Math_sin x <= 1.
Hypothesis draws_unit : forall n, 0 <= draws n < 1.


Lemma sum_range (lo hi : Q) (ps : list num) (s0 : Q) :
  Forall (between lo hi) ps ->
  exists s, foldl add (Fin s0) ps = Fin s
            /\ s0 + inject_Z (Z.of_nat (length ps)) * lo <= s
               <= s0 + inject_Z (Z.of_nat (length ps)) * hi.
Proof.
  intros Hps. revert s0.
  induction Hps as [|p ps Hp _ IH]; intros s0.
  - exists s0. split; [done|]. change (inject_Z (Z.of_nat (length []))) with 0. lra.
  - destruct p as [| |q|]; cbn [between] in Hp; try done.
    cbn [foldl add].
    destruct (IH (s0 + q)) as (s & -> & Hs).
    exists s. split; [done|].
    cbn [length]. rewrite Nat2Z.inj_succ, <- Z.add_1_r, inject_Z_plus.
    change (inject_Z 1) with 1. lra.
Qed.

(** The mean of a non-empty list of values of [lo, hi]. *)
Lemma mean_range (lo hi : Q) (ps : list num) :
  Forall (between lo hi) ps -> ps <> [] ->
  between lo hi (JS.sum ps / of_nat (length ps))%num.
Proof.
  intros Hps Hne. unfold JS.sum.
  destruct (sum_range lo hi ps 0 Hps) as (s & -> & Hs).
  set (n := inject_Z (Z.of_nat (length ps))) in *.
  assert (Hn : 0 < n).
  { unfold n. change 0 with (inject_Z 0). rewrite <- Zlt_Qlt.
    destruct ps; [done|simpl; lia]. }
  unfold of_nat, of_Z. fold n. rewrite div_fin by lra. cbn [between].
  split.
  - apply Qle_shift_div_l; [done|]. lra.
  - apply Qle_shift_div_r; [done|]. lra.
Qed.


End FallbackFacts.



(** ** The regression on a series that follows a line *)

Section TrendFacts.

Lemma foldl_ext_in {A B} (f g : A -> B -> A) (l : list B) (a : A) :
  (forall a x, x ∈ l -> f a x = g a x) -> foldl f a l = foldl g a l.
Proof.
  revert a. induction l as [|x l IH]; intros a Hfg; [done|].
  cbn [foldl]. rewrite Hfg by apply list_elem_of_here.
  apply IH. intros a' y Hy. apply Hfg. by apply list_elem_of_further.
Qed.

Lemma clamp_proper (p q : Q) : p == q -> clamp (Fin p) ==n clamp (Fin q).
Proof.
  intros Hpq. unfold clamp, Math_max, Math_min. cbn [isNaN orb].
  destruct (Fin 0.1 <? Fin p)%num eqn:E1, (Fin 0.1 <? Fin q)%num eqn:E2;
    cbn [isNaN orb];
    try apply lt_fin in E1; try apply lt_fin_false in E1;
    try apply lt_fin in E2; try apply lt_fin_false in E2; try lra.
  - destruct (Fin p <? Fin 0.9)%num eqn:E3, (Fin q <? Fin 0.9)%num eqn:E4;
      cbn [num_eq];
      try apply lt_fin in E3; try apply lt_fin_false in E3;
      try apply lt_fin in E4; try apply lt_fin_false in E4; lra.
  - destruct (Fin 0.1 <? Fin 0.9)%num; cbn [num_eq]; lra.
Qed.

Lemma forecast_loop_lookup (a b : Q) (n i fuel m : nat) :
  (m < fuel)%nat ->
  forecast_loop (Fin a) (Fin b) n i fuel !! m
  = Some (clamp (Fin (a + b * (inject_Z (Z.of_nat n) + - 1
                               + inject_Z (Z.of_nat (i + m)))))).
Proof.
  revert i m. induction fuel as [|fuel IH]; intros i m Hm; [lia|].
  cbn [forecast_loop]. destruct m as [|m].
  - rewrite Nat.add_0_r. reflexivity.
  - cbn [lookup list_lookup].
    change (forecast_loop (Fin a) (Fin b) n (S i) fuel !! m
            = Some (clamp (Fin (a + b * (inject_Z (Z.of_nat n) + - 1
                                         + inject_Z (Z.of_nat (i + S m))))))).
    rewrite IH by lia. by replace (S i + m)%nat with (i + S m)%nat by lia.
Qed.

(** The four sums of the regression on the points [(i, a + b i)]. *)
Lemma trend_sums (a b : Q) (n : nat) :
  exists sx sx2 sy sxy : Q,
    foldl (fun acc i => (acc + of_nat i)%num) (Fin 0) (seq 0 n) = Fin sx
    /\ foldl (fun acc i => (acc + of_nat i * of_nat i)%num) (Fin 0) (seq 0 n)
       = Fin sx2
    /\ foldl (fun acc i => (acc + Fin (a + b * inject_Z (Z.of_nat i)))%num)
         (Fin 0) (seq 0 n) = Fin sy
    /\ foldl (fun acc i =>
                (acc + of_nat i * Fin (a + b * inject_Z (Z.of_nat i)))%num)
         (Fin 0) (seq 0 n) = Fin sxy
    /\ 2 * sx == inject_Z (Z.of_nat n) * (inject_Z (Z.of_nat n) - 1)
    /\ 6 * sx2 == (inject_Z (Z.of_nat n) - 1) * inject_Z (Z.of_nat n)
                  * (2 * inject_Z (Z.of_nat n) - 1)
    /\ sy == inject_Z (Z.of_nat n) * a + b * sx
    /\ sxy == a * sx + b * sx2.
Proof.
  induction n as [|n (sx & sx2 & sy & sxy & Hx & Hx2 & Hy & Hxy & Cx & Cx2 & Cy & Cxy)].
  - exists 0, 0, 0, 0. repeat split; try done;
      change (inject_Z (Z.of_nat 0)) with 0; ring.
  - rewrite !seq_S, !foldl_snoc, Hx, Hx2, Hy, Hxy.
    cbn [add mul of_nat of_Z Nat.add].
    eexists _, _, _, _. repeat split;
      rewrite ?Nat2Z.inj_succ, <- ?Z.add_1_r, ?inject_Z_plus;
      change (inject_Z 1) with 1.
    + lra.
    + lra.
    + rewrite Cy. ring.
    + rewrite Cxy. ring.
Qed.

End TrendFacts.

(** X18: On a series of at least two points that lie on a line, point [i]
    being [a + b i], the regression finds that line: the forecast for step
    [h] is the value of the line at index [n - 1 + h], clamped to
    [0.1, 0.9] (arithmetic being exact).  In particular a constant series
    inside [0.1, 0.9] is forecast as that constant. *)
Theorem forecast_extends_linear_trend (a b : Q) (n days h : nat) :
  (2 <= n)%nat -> (1 <= h <= days)%nat ->
  let values := (fun i => Fin (a + b * inject_Z (Z.of_nat i))) <$> seq 0 n in
  exists v,
    linearForecast values days !! (h - 1)%nat = Some v
    /\ v ==n clamp (Fin (a + b * inject_Z (Z.of_nat (n - 1 + h))))
    /\ (b == 0 -> 0.1 <= a <= 0.9 -> v ==n Fin a).
Proof.
  intros Hn Hh. cbv zeta.
  set (values := (fun i => Fin (a + b * inject_Z (Z.of_nat i))) <$> seq 0 n).
  assert (Hlen : length values = n)
    by (unfold values; by rewrite length_fmap, length_seq).
  destruct (trend_sums a b n)
    as (sx & sx2 & sy & sxy & Hx & Hx2 & Hy & Hxy & Cx & Cx2 & Cy & Cxy).
  pose proof (regression_denominator n sx sx2 Hn Cx Cx2) as Hden.
  assert (Hz : 2 <= inject_Z (Z.of_nat n)).
  { change 2 with (inject_Z 2). rewrite <- Zle_Qle. lia. }
  unfold linearForecast. rewrite Hlen.
  destruct (Nat.ltb_spec n 2) as [?|_]; [lia|]. cbv zeta.
  rewrite Hx, Hx2.
  replace (foldl (fun a0 b0 => (a0 + b0)%num) (Fin 0) values) with (Fin sy)
    by (unfold values; by rewrite foldl_fmap).
  replace (foldl (fun a0 i => (a0 + of_nat i * get values i)%num) (Fin 0) (seq 0 n))
    with (Fin sxy).
  2:{ rewrite <- Hxy. apply foldl_ext_in. intros acc i Hi.
      apply elem_of_seq in Hi. do 2 f_equal. unfold get, values.
      rewrite list_lookup_fmap, lookup_seq_lt by lia. reflexivity. }
  unfold of_nat, of_Z. cbn [mul sub neg add].
  set (z := inject_Z (Z.of_nat n)) in *.
  rewrite div_fin by (intros E; rewrite E in Hden; lra).
  cbn [mul sub neg add]. rewrite div_fin by lra.
  rewrite forecast_loop_lookup by lia.
  eexists. split; [reflexivity|].
  assert (Hslope : (z * sxy + - (sx * sy)) / (z * sx2 + - (sx * sx)) == b).
  { rewrite Cy, Cxy. field. intros E. rewrite E in Hden. lra. }
  assert (Hidx : inject_Z (Z.of_nat (n - 1 + h))
                 == z + - 1 + inject_Z (Z.of_nat (1 + (h - 1)))).
  { unfold z.
    replace (Z.of_nat (n - 1 + h))
      with (Z.of_nat n + -1 + Z.of_nat (1 + (h - 1)))%Z by lia.
    rewrite !inject_Z_plus. reflexivity. }
  assert (Hval :
    (sy + - ((z * sxy + - (sx * sy)) / (z * sx2 + - (sx * sx)) * sx)) / z
    + (z * sxy + - (sx * sy)) / (z * sx2 + - (sx * sx))
      * (z + - 1 + inject_Z (Z.of_nat (1 + (h - 1))))
    == a + b * inject_Z (Z.of_nat (n - 1 + h))).
  { rewrite Hslope, Hidx, Cy. field. lra. }
  split; [by apply clamp_proper|].
  intros Hb Ha.
  assert (Hconst :
    (sy + - ((z * sxy + - (sx * sy)) / (z * sx2 + - (sx * sx)) * sx)) / z
    + (z * sxy + - (sx * sy)) / (z * sx2 + - (sx * sx))
      * (z + - 1 + inject_Z (Z.of_nat (1 + (h - 1))))
    == a).
  { rewrite Hval, Hb. ring. }
  pose proof (clamp_proper _ _ Hconst) as H1.
  pose proof (clamp_fixed a Ha) as H2.
  destruct (clamp (Fin _)) as [| |c1|], (clamp (Fin a)) as [| |c2|];
    cbn [num_eq] in *; try done. lra.
Qed.

Lemma forecast_extends_linear_trend_witness :
  exists v,
    linearForecast
      ((fun i => Fin (0.5 + 0 * inject_Z (Z.of_nat i))) <$> seq 0 5) 7 !! 6%nat
    = Some v /\ v ==n Fin 0.5.
Proof.
  destruct (forecast_extends_linear_trend 0.5 0 5 7 7) as (v & Hv & _ & Hc).
  - lia.
  - lia.
  - exists v. split; [exact Hv|]. apply Hc; [reflexivity|lra].
Defined.

(** ** The statistics variant *)

Section StatsFacts.

Import StatsVariant.

Variable draws : nat -> Q.

(** The two loops of [generateGridFromStats], unrolled: the cell of column
    [i] and row [j] is the [(3 i + j)]-th pushed and uses the
    [(3 i + j)]-th draw from [k]. *)
Lemma generateGridFromStats_unrolled (bbox : BBox) (meanNdvi : num) (k : nat) :
  generateGridFromStats draws bbox meanNdvi k
  = (mkGridResult
       [grid_cell bbox (stats_value meanNdvi (draws k)) 0 0;
        grid_cell bbox (stats_value meanNdvi (draws (1 + k))) 0 1;
        grid_cell bbox (stats_value meanNdvi (draws (2 + k))) 0 2;
        grid_cell bbox (stats_value meanNdvi (draws (3 + k))) 1 0;
        grid_cell bbox (stats_value meanNdvi (draws (4 + k))) 1 1;
        grid_cell bbox (stats_value meanNdvi (draws (5 + k))) 1 2;
        grid_cell bbox (stats_value meanNdvi (draws (6 + k))) 2 0;
        grid_cell bbox (stats_value meanNdvi (draws (7 + k))) 2 1;
        grid_cell bbox (stats_value meanNdvi (draws (8 + k))) 2 2]
       (JS.sum [stats_value meanNdvi (draws k);
                stats_value meanNdvi (draws (1 + k));
                stats_value meanNdvi (draws (2 + k));
                stats_value meanNdvi (draws (3 + k));
                stats_value meanNdvi (draws (4 + k));
                stats_value meanNdvi (draws (5 + k));
                stats_value meanNdvi (draws (6 + k));
                stats_value meanNdvi (draws (7 + k));
                stats_value meanNdvi (draws (8 + k))] / Fin 9)%num,
     (9 + k)%nat).
Proof. reflexivity. Qed.

Lemma stats_value_range (m r : Q) :
  0 <= r < 1 ->
  exists v, stats_value (Fin m) r = Fin v
            /\ v == m + (r - 0.5) * 0.15
            /\ m - 0.075 <= v <= m + 0.075.
Proof.
  intros Hr. unfold stats_value. cbn [sub neg mul add].
  eexists. split; [reflexivity|]. split; [ring|lra].
Qed.

Lemma stats_forecast_loop_length (lastValue : num) (fuel k : nat) :
  length (stats_forecast_loop draws lastValue fuel k) = fuel.
Proof.
  revert k. induction fuel as [|fuel IH]; intros k; [done|].
  cbn [stats_forecast_loop length]. by rewrite IH.
Qed.

Lemma clamp_not_nan (v : num) : isNaN v = false -> between 0.1 0.9 (clamp v).
Proof.
  destruct v as [| |q|]; intros Hv.
  - discriminate Hv.
  - change (clamp NInf) with (Fin 0.1). cbn [between]. lra.
  - apply clamp_fin.
  - change (clamp PInf) with (Fin 0.9). cbn [between]. lra.
Qed.

Lemma stats_forecast_loop_between (lastValue : num) (fuel k : nat) :
  isNaN lastValue = false ->
  Forall (between 0.1 0.9) (stats_forecast_loop draws lastValue fuel k).
Proof.
  intros Hlast. revert k.
  induction fuel as [|fuel IH]; intros k; [apply Forall_nil_2|].
  cbn [stats_forecast_loop]. constructor; [|apply IH].
  apply clamp_not_nan. by destruct lastValue.
Qed.

Lemma or_else_not_nan (x : option num) (q : Q) : isNaN (or_else x (Fin q)) = false.
Proof.
  unfold or_else. destruct x as [v|]; [|done].
  destruct (truthy v) eqn:E; [|done]. by destruct v.
Qed.


End StatsFacts.

(** X19: [generateGridFromStats] around a finite mean, with draws in [0, 1):
    it consumes 9 draws and returns 9 cells; the cell of column [i] and
    row [j], at position [3 i + j], has the ring of that cell, the value
    [mean + (r - 0.5) * 0.15] for its own draw [r], hence a value within
    0.075 of the mean, and the label of the bucket of its value; the
    returned average is within 0.075 of the mean too. *)
Theorem stats_grid_around_mean (draws : nat -> Q) (bbox : BBox) (mean : Q)
    (k : nat) :
  (forall n, 0 <= draws n < 1) ->
  let out := StatsVariant.generateGridFromStats draws bbox (Fin mean) k in
  out.2 = (9 + k)%nat
  /\ length (features out.1) = 9%nat
  /\ (forall i j : nat, (i < 3)%nat -> (j < 3)%nat ->
        exists cell v,
          features out.1 !! (3 * i + j)%nat = Some cell
          /\ ndvi cell = Fin v
          /\ v == mean + (draws (3 * i + j + k)%nat - 0.5) * 0.15
          /\ mean - 0.075 <= v <= mean + 0.075
          /\ coordinates cell = cell_ring bbox i j
          /\ health cell = cell_label (bucket_of (ndvi cell)))
  /\ between (mean - 0.075) (mean + 0.075) (avgNdvi out.1).
Proof.
  intros Hdraws. cbv zeta. rewrite generateGridFromStats_unrolled.
  cbn [fst snd features avgNdvi].
  split; [done|]. split; [done|]. split.
  - intros i j Hi Hj.
    destruct i as [|[|[|i]]]; [| | |lia];
      (destruct j as [|[|[|j]]]; [| | |lia]);
      cbn [Nat.mul Nat.add lookup list_lookup];
      match goal with
      | |- context [stats_value (Fin mean) (draws ?n)] =>
          destruct (stats_value_range mean (draws n) (Hdraws n)) as (v & Hv & Heq & Hr)
      end;
      eexists _, v; (split; [reflexivity|]); unfold grid_cell;
      cbn [ndvi coordinates health];
      repeat split; try done; try lra; apply ladders_bucket.
  - match goal with
    | |- between _ _ (JS.sum ?l / Fin 9)%num =>
        change (between (mean - 0.075) (mean + 0.075)
                  (JS.sum l / of_nat (length l))%num)
    end.
    apply mean_range; [|done].
    repeat (apply Forall_cons; split;
      [match goal with
       | |- between _ _ (stats_value (Fin mean) (draws ?n)) =>
           destruct (stats_value_range mean (draws n) (Hdraws n)) as (v & -> & _ & Hr);
           cbn [between]; lra
       end|]).
    apply Forall_nil_2.
Qed.

Lemma stats_grid_around_mean_witness :
  length (features
            (StatsVariant.generateGridFromStats (fun n => 1 # Pos.of_nat (n + 2))
               (mkBBox (Fin 0) (Fin 0) (Fin 3) (Fin 3)) (Fin 0.5) 0).1) = 9%nat.
Proof.
  apply (stats_grid_around_mean (fun n => 1 # Pos.of_nat (n + 2))
           (mkBBox (Fin 0) (Fin 0) (Fin 3) (Fin 3)) 0.5 0).
  intros n. split; [done|]. unfold Qlt. cbn [Qnum Qden]. lia.
Defined.

(** X20: The forecast of the statistics variant has 7 values, all in
    [0.1, 0.9], whatever the series holds (NaN and the infinities included)
    and whatever is drawn: a falsy last value is replaced by 0.5 and every
    value is clamped. *)
Theorem stats_forecast_clamped (draws : nat -> Q) (values : list num) (k : nat) :
  length (StatsVariant.stats_forecast draws values k) = 7%nat
  /\ Forall (between 0.1 0.9) (StatsVariant.stats_forecast draws values k).
Proof.
  unfold StatsVariant.stats_forecast.
  split; [apply stats_forecast_loop_length|].
  apply stats_forecast_loop_between, or_else_not_nan.
Qed.

Section StatsHandlerFacts.

Import StatsVariant.

Variable Math_sin : Q -> Q.
Variable draws : nat -> Q.






End StatsHandlerFacts.








(** ** The status codes of the raster variant *)

Section StatusFacts.

Variable Math_sin : Q -> Q.
Variable draws : nat -> Q.





End StatusFacts.



(** X17: Whatever path produced it, a 200 answer is consistent with its own
    grid: the stress zones are the cells of the grid below 0.30 (so a
    sub-list of the grid), the percentage is computed from that grid, and
    the summary label is the one of the reported average. *)
Theorem analyze_result_consistent (Math_sin : Q -> Q) (draws : nat -> Q)
    (tw : token_world) (pw : process_world) (req : Request)
    (result : AnalysisResult) :
  analyze Math_sin draws tw pw req = Status200 result ->
  stress_zones result = stressFeatures (health_grid result)
  /\ sublist (stress_zones result) (health_grid result)
  /\ stress_percent (summary result) = stressPercent (health_grid result)
  /\ summary_health (summary result) = overallHealth_of (avg_ndvi (summary result))
  /\ length (forecast result) = 7%nat.
Proof.
  unfold analyze, analyze_body.
  destruct (Handler.polygon req) as [polygon|]; [|done].
  destruct (length polygon <? 3)%nat; [done|].
  destruct (getAccessToken tw) as [token|]; [|done].
  unfold mbind at 2, outcome_bind. cbn [Exn.bind]. cbv zeta.
  assert (Hlen : forall values, length (linearForecast values 7) = 7%nat).
  { intros values. unfold linearForecast.
    destruct (length values <? 2)%nat;
      [apply length_replicate|apply forecast_loop_length]. }
  destruct (acquire pw) as [[m|] [|] [avg|]];
    cbn [usingRealData avgNdvi_real ndviMatrix];
    unfold mbind, outcome_bind;
    repeat match goal with
    | |- context [aggregateTo3x3 ?m] => destruct (aggregateTo3x3 m); cbn [Exn.bind]
    | |- context [generateGridFromMatrix ?b ?m] =>
        destruct (generateGridFromMatrix b m); cbn [Exn.bind]
    end;
    cbn [try_catch]; intros H; try discriminate H;
    injection H as <-;
    cbn [stress_zones health_grid summary stress_percent summary_health
           avg_ndvi forecast];
    (split; [done|]); (split; [apply filter_sublist|]); by repeat split.
Qed.

Lemma analyze_result_consistent_witness :
  exists result,
    analyze (fun _ => 0) (fun _ => 0) (TokenIssued "t") ProcessUnreachable
      (mkRequest (Some [(Fin 0, Fin 0); (Fin 0, Fin 1); (Fin 1, Fin 1)]) 3)
    = Status200 result
    /\ length (forecast result) = 7%nat.
Proof.
  destruct (analyze_falls_back (fun _ => 0) (fun _ => 0) (TokenIssued "t") "t"
              ProcessUnreachable
              [(Fin 0, Fin 0); (Fin 0, Fin 1); (Fin 1, Fin 1)] 3)
    as (result & Hres & _).
  - reflexivity.
  - simpl. lia.
  - constructor.
  - exists result. split; [exact Hres|].
    by apply (analyze_result_consistent _ _ _ _ _ _ Hres).
Defined.

(** ** Degenerate polygons *)

Section DegenerateFacts.

Lemma foldl_min_constant (x : Q) (n : nat) :
  foldl Math_min (Fin x) (replicate n (Fin x)) = Fin x.
Proof.
  induction n as [|n IH]; [done|]. cbn [replicate foldl].
  replace (Math_min (Fin x) (Fin x)) with (Fin x); [done|].
  unfold Math_min. cbn [isNaN orb]. by destruct (Fin x <? Fin x)%num.
Qed.

Lemma foldl_max_constant (x : Q) (n : nat) :
  foldl Math_max (Fin x) (replicate n (Fin x)) = Fin x.
Proof.
  induction n as [|n IH]; [done|]. cbn [replicate foldl].
  replace (Math_max (Fin x) (Fin x)) with (Fin x); [done|].
  unfold Math_max. cbn [isNaN orb]. by destruct (Fin x <? Fin x)%num.
Qed.

End DegenerateFacts.

(** X4: A polygon whose vertices all coincide (the statistics variant accepts
    a single vertex) has a box of zero width and height: no padding is
    added, the four corners of the box are the vertex, and every point of
    the ring of every grid cell is that vertex. *)
Theorem degenerate_polygon_collapses (x y : Q) (n i j : nat) :
  let bbox := bbox_of (replicate (S n) (Fin x, Fin y)) in
  minLng bbox ==n Fin x /\ maxLng bbox ==n Fin x
  /\ minLat bbox ==n Fin y /\ maxLat bbox ==n Fin y
  /\ Forall (fun p => p.1 ==n Fin x /\ p.2 ==n Fin y) (cell_ring bbox i j).
Proof.
  cbv zeta.
  assert (Hbox : bbox_of (replicate (S n) (Fin x, Fin y))
    = mkBBox (Fin (x + - ((x + - x) * 0.1))) (Fin (y + - ((y + - y) * 0.1)))
        (Fin (x + (x + - x) * 0.1)) (Fin (y + (y + - y) * 0.1))).
  { unfold bbox_of, raw_extent. rewrite raw_extent_components, !fmap_replicate.
    cbn [fst snd replicate foldl].
    change (Math_min PInf (Fin x)) with (Fin x).
    change (Math_max NInf (Fin x)) with (Fin x).
    change (Math_min PInf (Fin y)) with (Fin y).
    change (Math_max NInf (Fin y)) with (Fin y).
    by rewrite !foldl_min_constant, !foldl_max_constant. }
  rewrite Hbox. cbn [minLng maxLng minLat maxLat num_eq].
  split; [ring|]. split; [ring|]. split; [ring|]. split; [ring|].
  unfold cell_ring. cbn [minLng maxLng minLat maxLat sub neg add].
  rewrite !div_fin by lra. unfold of_nat, of_Z. cbn [mul add].
  repeat (apply Forall_cons; split;
          [cbn [fst snd num_eq]; split; field|]).
  apply Forall_nil_2.
Qed.

(** ** The recommendation *)

(** X25: The advice against the summary label.  The two ladders cut at
    different points (0.6 and 0.4, strictly, against 0.7, 0.55, 0.4 and
    0.25, inclusively): planned fertilizing is advised exactly above 0.6,
    an inspection exactly in (0.4, 0.6], urgent irrigation exactly up to
    0.4 and for NaN.  So an average labelled "отличное" always gets the
    first advice, an average of [0.55, 0.6] is labelled "хорошее" but
    gets the second, and the average 0.4 is labelled "среднее" but gets
    the third. *)
Theorem advice_against_label :
  (forall q : Q,
     (Recommendation.advice_of (Fin q) = Recommendation.PlannedFertilizing
      <-> 0.6 < q)
     /\ (Recommendation.advice_of (Fin q) = Recommendation.InspectForWaterDeficit
         <-> 0.4 < q <= 0.6)
     /\ (Recommendation.advice_of (Fin q) = Recommendation.UrgentIrrigation
         <-> q <= 0.4))
  /\ Recommendation.advice_of NaN = Recommendation.UrgentIrrigation
  /\ (forall v : num,
        overallHealth_of v = overall_label Excellent ->
        Recommendation.advice_of v = Recommendation.PlannedFertilizing)
  /\ (forall q : Q, 0.55 <= q <= 0.6 ->
        overallHealth_of (Fin q) = overall_label Good
        /\ Recommendation.advice_of (Fin q) = Recommendation.InspectForWaterDeficit)
  /\ (overallHealth_of (Fin 0.4) = overall_label Moderate
      /\ Recommendation.advice_of (Fin 0.4) = Recommendation.UrgentIrrigation).
Proof.
  assert (Hadvice : forall q : Q,
     (Recommendation.advice_of (Fin q) = Recommendation.PlannedFertilizing
      <-> 0.6 < q)
     /\ (Recommendation.advice_of (Fin q) = Recommendation.InspectForWaterDeficit
         <-> 0.4 < q <= 0.6)
     /\ (Recommendation.advice_of (Fin q) = Recommendation.UrgentIrrigation
         <-> q <= 0.4)).
  { intros q. unfold Recommendation.advice_of.
    destruct (Fin 0.6 <? Fin q)%num eqn:E1;
      [apply lt_fin in E1|apply lt_fin_false in E1];
      (destruct (Fin 0.4 <? Fin q)%num eqn:E2;
        [apply lt_fin in E2|apply lt_fin_false in E2]);
      repeat split; intros; try done; try lra. }
  split; [exact Hadvice|]. split; [reflexivity|]. split; [|split].
  - intros v. destruct (ladders_bucket v) as (_ & _ & ->).
    destruct v as [| |q|]; try (cbn; discriminate); [|reflexivity].
    destruct (bucket_of_fin q) as (P1 & P2 & P3 & P4 & P5).
    intros Hlabel. apply Hadvice.
    destruct (Qlt_le_dec q 0.25); [rewrite P5 in Hlabel by lra; discriminate Hlabel|].
    destruct (Qlt_le_dec q 0.4); [rewrite P4 in Hlabel by lra; discriminate Hlabel|].
    destruct (Qlt_le_dec q 0.55); [rewrite P3 in Hlabel by lra; discriminate Hlabel|].
    destruct (Qlt_le_dec q 0.7); [rewrite P2 in Hlabel by lra; discriminate Hlabel|].
    lra.
  - intros q Hq. split.
    + destruct (ladders_bucket (Fin q)) as (_ & _ & ->).
      destruct (bucket_of_fin q) as (_ & P2 & _). by rewrite P2 by lra.
    + apply Hadvice. lra.
  - split; reflexivity.
Qed.

(** X26: On a 9-cell grid the stress line is appended exactly when at least 2
    cells are stress zones (one cell is 11.1%, two are 22.2%). *)
Theorem stress_line_from_two_cells (cells : list Feature) :
  length cells = 9%nat ->
  (Recommendation.stress_line (stressPercent cells) = true
   <-> (2 <= length (stressFeatures cells))%nat).
Proof.
  intros Hlen. unfold Recommendation.stress_line, stressPercent.
  rewrite Hlen. unfold of_nat, of_Z.
  rewrite div_fin by (intros E; vm_compute in E; discriminate E).
  cbn [mul]. rewrite lt_fin.
  change (inject_Z (Z.of_nat 9)) with 9.
  set (k := length (stressFeatures cells)).
  split.
  - intros H.
    destruct (Nat.lt_ge_cases k 2) as [Hk|Hk]; [|done].
    assert (Hq : inject_Z (Z.of_nat k) <= 1).
    { change 1 with (inject_Z 1). rewrite <- Zle_Qle. lia. }
    unfold Qdiv in H. change (/ 9) with (1 # 9) in H. lra.
  - intros Hk.
    assert (Hq : 2 <= inject_Z (Z.of_nat k)).
    { change 2 with (inject_Z 2). rewrite <- Zle_Qle. lia. }
    unfold Qdiv. change (/ 9) with (1 # 9). lra.
Qed.

Lemma stress_line_from_two_cells_witness :
  let cell v := mkFeature (Fin v) (health_of (Fin v)) (color_of (Fin v)) [] in
  Recommendation.stress_line
    (stressPercent [cell 0.1; cell 0.3; cell 0.29; cell 0.5; cell 0.2;
                    cell 0.9; cell 0.7; cell 0.31; cell 0.6]) = true.
Proof.
  cbv zeta.
  match goal with
  | |- Recommendation.stress_line (stressPercent ?l) = true =>
      apply (stress_line_from_two_cells l)
  end.
  - reflexivity.
  - vm_compute. lia.
Defined.
